(** * Scalene: traceable-file filter and Python stack locator

    A shallow embedding of [register_files_to_profile.cpp]: the
    [PyStringPtrList] class (constructor, [should_trace], [print], the
    process-wide instance), the [PyPtr] smart pointer, the stack walk
    [getPythonInfo] and the extension entry points
    [register_files_to_profile] and [print_files_to_profile], followed by
    the properties of the specification that concern them and by further
    properties of the code.

    Conventions.
    - A [char*] is the [string] of the bytes before its terminating NUL.
    - A call that may end the process returns an [Outcome]: [Done v] when it
      returns [v], [Fatal c] when the process dies ([abort()], a null
      dereference, an exception nobody catches) or when C++ leaves what
      happens next undefined (overflow of a signed counter).
    - A nullable pointer is an [option]; [None] is the null pointer.
    - [int], [Py_ssize_t] values are in [Z]; the only conversion that wraps
      ([Py_ssize_t] to [size_t] in [reserve]) is written out, and so is the
      one increment that can leave the range of [int] (the counter of the
      constructor's loop).
    - The GIL and the instance mutex serialise the calls modelled here; one
      call is one atomic step on the state. *)

From Stdlib Require Import Bool List ZArith NArith Lia.
From Stdlib Require Import Ascii String.
Import ListNotations.

Local Open Scope string_scope.
Local Open Scope Z_scope.

(* ================================================================== *)
(** ** Outcomes of calls that may end the process *)

Inductive Cause : Type :=
| abort_called            (* abort() *)
| null_dereference        (* a read through a null pointer *)
| uncaught_length_error   (* std::length_error leaving the extension *)
| signed_overflow.        (* ++ on an int that holds INT_MAX: undefined *)

Inductive Outcome (A : Type) : Type :=
| Done (a : A)
| Fatal (c : Cause).

Arguments Done {A} a.
Arguments Fatal {A} c.

Definition bind {A B : Type} (m : Outcome A) (k : A -> Outcome B) : Outcome B :=
  match m with
  | Done a => k a
  | Fatal c => Fatal c
  end.

Notation "x <- m ;; k" := (bind m (fun x => k))
  (at level 61, m at next level, right associativity).

(* ================================================================== *)
(** ** The C library functions the file calls *)

Module Libc.

(** [strstr(haystack, needle)]: the suffix of [haystack] that starts at
    the first occurrence of [needle], or the null pointer.  An empty
    needle is found at once. *)
Fixpoint strstr (haystack needle : string) : option string :=
  if prefix needle haystack then Some haystack
  else match haystack with
       | EmptyString => None
       | String _ rest => strstr rest needle
       end.

(** A pointer used as a condition: true when it is not null. *)
Definition nonnull {A : Type} (p : option A) : bool :=
  match p with
  | Some _ => true
  | None => false
  end.

(** [strlen]. *)
Definition strlen (s : string) : Z := Z.of_nat (String.length s).

(** [*s == c]: the first byte, NUL for the empty string. *)
Definition first_char (s : string) : ascii :=
  match s with
  | EmptyString => zero
  | String c _ => c
  end.

(** What C sees of a byte buffer: the bytes before the first NUL. *)
Fixpoint c_str (buffer : string) : string :=
  match buffer with
  | EmptyString => EmptyString
  | String c rest =>
      if Ascii.eqb c zero then EmptyString else String c (c_str rest)
  end.

(** [realpath(path, resolved_path)] depends on the file system, which is
    a parameter of everything that calls it: [Some p] is the canonical
    path written to [resolved_path], [None] is the null return. *)
Definition FileSystem : Type := string -> option string.

End Libc.

Import Libc.

(* ================================================================== *)
(** ** The part of the CPython API the file calls *)

Module CPython.

(** Python values, as far as this extension can tell them apart. *)
#[warning="-register-all"] Inductive PyObject : Type :=
| PyNone
| PyBool (b : bool)
| PyLong (n : Z)
| PyUnicode (code_points : list N)
| PyBytes (buffer : string)
| PyTuple (elts : list PyObject)
| PyList (elts : list PyObject).

Definition PyList_Check (o : PyObject) : bool :=
  match o with
  | PyList _ => true
  | _ => false
  end.

(** [PyList_Size]: -1 (with an error set) on anything but a list. *)
Definition PyList_Size (o : PyObject) : Z :=
  match o with
  | PyList elts => Z.of_nat (List.length elts)
  | _ => -1
  end.

(** [PyList_GetItem]: null when [o] is no list or [i] is out of range. *)
Definition PyList_GetItem (o : PyObject) (i : nat) : option PyObject :=
  match o with
  | PyList elts => nth_error elts i
  | _ => None
  end.

Definition is_ascii (code_points : list N) : bool :=
  forallb (fun c => (c <? 128)%N) code_points.

Definition string_of_code_points (code_points : list N) : string :=
  string_of_list_ascii (List.map ascii_of_N code_points).

(** [PyUnicode_AsASCIIString]: a new bytes object, given here by its
    buffer, or null when the argument is null, is no [str], or has a code
    point above 127. *)
Definition PyUnicode_AsASCIIString (o : option PyObject) : option string :=
  match o with
  | Some (PyUnicode code_points) =>
      if is_ascii code_points
      then Some (string_of_code_points code_points)
      else None
  | _ => None
  end.

(** [PyBytes_AsString] on the result of [PyUnicode_AsASCIIString]: the
    buffer of the bytes object as a [char*].  Its type test reads through
    the pointer, so a null argument ends the process. *)
Definition PyBytes_AsString (encoded : option string) : Outcome string :=
  match encoded with
  | None => Fatal null_dereference
  | Some buffer => Done (c_str buffer)
  end.

(** [PyObject_IsTrue], behind the [p] format unit. *)
Definition PyObject_IsTrue (o : PyObject) : bool :=
  match o with
  | PyNone => false
  | PyBool b => b
  | PyLong n => negb (n =? 0)
  | PyUnicode code_points => negb (Nat.eqb (List.length code_points) 0)
  | PyBytes buffer => negb (Nat.eqb (String.length buffer) 0)
  | PyTuple elts => negb (Nat.eqb (List.length elts) 0)
  | PyList elts => negb (Nat.eqb (List.length elts) 0)
  end.

(** [PyArg_ParseTuple(args, "OOp", ...)]: exactly three arguments. *)
Definition PyArg_ParseTuple_OOp (args : list PyObject)
  : option (PyObject * PyObject * bool) :=
  match args with
  | [a; b; c] => Some (a, b, PyObject_IsTrue c)
  | _ => None
  end.

(** The error indicator of the calling thread. *)
Inductive PyExc : Type :=
| PyExc_Exception (msg : string)
| PyExc_TypeError.

Record PyCodeObject : Type := mkCode {
  co_filename : PyObject;
  (** the line table, as [PyCode_Addr2Line] reads it *)
  co_addr2line : Z -> Z
}.

Record PyFrameObject : Type := mkFrame {
  f_code : PyCodeObject;
  f_lasti : Z
}.

Definition PyCode_Addr2Line (code : PyCodeObject) (addr : Z) : Z :=
  co_addr2line code addr.

(** The interpreter as the sampling thread finds it.  A thread state
    holds the frame chain, innermost frame first: [f_back] is the tail. *)
Record PyRuntime : Type := mkRuntime {
  Py_IsInitialized : bool;
  PyGILState_GetThisThreadState : option (list PyFrameObject)
}.

(** [PyEval_GetFrame()] under the GIL: the chain of the thread state. *)
Definition PyEval_GetFrame (rt : PyRuntime) : list PyFrameObject :=
  match PyGILState_GetThisThreadState rt with
  | Some frames => frames
  | None => []
  end.

End CPython.

Import CPython.

(* ================================================================== *)
(** ** std::vector<char*>::reserve *)

Definition SIZE_MAX : Z := 2 ^ 64 - 1.

(** [max_size()] of a vector of pointers on an LP64 target. *)
Definition vector_max_size : Z := 2 ^ 60 - 1.

(** [items.reserve(n)] with [n] a [Py_ssize_t]: the argument is converted
    to [size_t], and a request above [max_size()] throws
    [std::length_error].  Nothing in the extension catches it. *)
Definition vector_reserve (n : Z) : Outcome unit :=
  let request := n mod (SIZE_MAX + 1) in
  if vector_max_size <? request then Fatal uncaught_length_error else Done tt.

(* ================================================================== *)
(** ** class PyStringPtrList *)

Record PyStringPtrList : Type := mkPyStringPtrList {
  items : list string;
  scalene_base_path : string;
  owner : option PyObject;
  path_owner : option PyObject;
  profile_all : bool
}.

Definition INT_MAX : Z := 2 ^ 31 - 1.

(** [i++] on the [int] counter of the constructor's loop: on [INT_MAX] the
    behaviour is undefined, and nothing is said about what follows. *)
Definition int_succ (i : nat) : Outcome nat :=
  if Z.of_nat i <? INT_MAX then Done (S i) else Fatal signed_overflow.

(** The constructor's loop [for (int i = 0; i < size; i++)] from counter
    value [i], with [n] rounds to go until [i < size] fails.  A round is
    [items.push_back(PyBytes_AsString(PyUnicode_AsASCIIString(item)))]
    followed by [i++]. *)
Fixpoint push_items (owner : PyObject) (i n : nat) (items : list string)
  : Outcome (list string) :=
  match n with
  | O => Done items
  | S n' =>
      let item := PyList_GetItem owner i in
      s <- PyBytes_AsString (PyUnicode_AsASCIIString item) ;;
      i' <- int_succ i ;;
      push_items owner i' n' (items ++ [s])
  end.

(** [PyStringPtrList(list_wrapper, base_path, profile_all_b)]. *)
Definition PyStringPtrList_new (list_wrapper base_path : PyObject)
    (profile_all_b : bool) : Outcome PyStringPtrList :=
  let size := PyList_Size list_wrapper in
  _ <- vector_reserve size ;;
  its <- push_items list_wrapper 0 (Z.to_nat size) [] ;;
  base <- PyBytes_AsString (PyUnicode_AsASCIIString (Some base_path)) ;;
  Done {| items := its;
          scalene_base_path := base;
          owner := Some list_wrapper;
          path_owner := Some base_path;
          profile_all := profile_all_b |}.

(** [bool should_trace(char* filename)].  The message printed to stderr
    before [abort()] is not modelled. *)
Definition should_trace (realpath : FileSystem) (this : PyStringPtrList)
    (filename : string) : Outcome bool :=
  if nonnull (strstr filename "site-packages")
     || nonnull (strstr filename "/lib/python")
  then Done false
  else if Ascii.eqb (first_char filename) "<"%char
          && nonnull (strstr filename "<ipython")
  then Done true
  else if nonnull (strstr filename "scalene/scalene")
  then Done false
  else if nonnull (owner this)
          && existsb (fun traceable => nonnull (strstr filename traceable))
                     (items this)
  then Done true
  else match realpath filename with
       | None => Fatal abort_called
       | Some resolved_path =>
           Done (nonnull (strstr resolved_path (scalene_base_path this)))
       end.

(* ================================================================== *)
(** ** The process-wide instance and the module's entry points *)

Record Process : Type := mkProcess {
  (** [PyStringPtrList::_instance] *)
  _instance : option PyStringPtrList;
  (** the Python error indicator *)
  error_indicator : option PyExc
}.

(** [setInstance]: the old instance is deleted, the new one installed. *)
Definition setInstance (instance : PyStringPtrList) (p : Process) : Process :=
  {| _instance := Some instance; error_indicator := error_indicator p |}.

Definition getInstance (p : Process) : option PyStringPtrList := _instance p.

Definition PyErr_SetString (e : PyExc) (p : Process) : Process :=
  {| _instance := _instance p; error_indicator := Some e |}.

(** [register_files_to_profile(self, args)]: the returned pointer ([None]
    is NULL, which reports the pending error to the caller) and the
    process afterwards.  [PyList_Size] on a non-list also sets an error;
    the process does not survive the [reserve] that follows it. *)
Definition register_files_to_profile (p : Process) (args : list PyObject)
  : Outcome (option PyObject * Process) :=
  match PyArg_ParseTuple_OOp args with
  | None => Done (None, PyErr_SetString PyExc_TypeError p)
  | Some (a_list, base_path, profile_all) =>
      let is_list := PyList_Check a_list in
      let p1 := if negb is_list
                then PyErr_SetString
                       (PyExc_Exception "Requires list or list-like object") p
                else p in
      instance <- PyStringPtrList_new a_list base_path profile_all ;;
      Done (Some PyNone, setInstance instance p1)
  end.

(* ================================================================== *)
(** ** getPythonInfo: the stack walk *)

(** The three reference parameters of [getPythonInfo]. *)
Record Location : Type := mkLocation {
  filename : string;
  lineno : Z;
  bytei : Z
}.

Definition BOGUS : Location :=
  {| filename := "<BOGUS>"; lineno := 1; bytei := 0 |}.

(** What a walk did: the filenames it passed to [should_trace], in order
    (a record kept for the proofs, the program has no such list), and how
    it ended: the returned [int] with the reference parameters. *)
Record Walk : Type := mkWalk {
  consulted : list string;
  ended : Outcome (Z * Location)
}.

Definition consult (name : string) (w : Walk) : Walk :=
  {| consulted := name :: consulted w; ended := ended w |}.

(** The cheap test before the filter is asked. *)
Definition worth_asking (filenameStr : string) : bool :=
  negb (nonnull (strstr filenameStr "<"))
  && negb (nonnull (strstr filenameStr "/python"))
  && negb (nonnull (strstr filenameStr "scalene/scalene")).

(** [bytei = frame->f_lasti], or 0 when the build defines
    [PyPy_FatalError]. *)
Definition frame_bytei (PyPy_FatalError_defined : bool) (frame : PyFrameObject) : Z :=
  if PyPy_FatalError_defined then 0 else f_lasti frame.

(** The [for] loop over the frame chain; [out] holds the reference
    parameters as they are when the loop is entered. *)
Fixpoint walk_frames (PyPy_FatalError_defined : bool) (realpath : FileSystem)
    (instance : option PyStringPtrList) (out : Location)
    (frames : list PyFrameObject) : Walk :=
  match frames with
  | [] => {| consulted := []; ended := Done (0, out) |}
  | frame :: f_back =>
      let continue :=
        walk_frames PyPy_FatalError_defined realpath instance out f_back in
      let fname := co_filename (f_code frame) in
      match PyUnicode_AsASCIIString (Some fname) with
      | None => {| consulted := []; ended := Done (0, out) |}
      | Some encoded =>
          match PyBytes_AsString (Some encoded) with
          | Fatal c => {| consulted := []; ended := Fatal c |}
          | Done filenameStr =>
              if strlen filenameStr =? 0 then continue
              else if worth_asking filenameStr then
                match instance with
                | None => continue
                | Some py_string_ptr_list =>
                    match should_trace realpath py_string_ptr_list filenameStr with
                    | Fatal c =>
                        {| consulted := [filenameStr]; ended := Fatal c |}
                    | Done false => consult filenameStr continue
                    | Done true =>
                        let b := frame_bytei PyPy_FatalError_defined frame in
                        {| consulted := [filenameStr];
                           ended :=
                             Done (1, {| filename := filenameStr;
                                         lineno := PyCode_Addr2Line (f_code frame) b;
                                         bytei := b |}) |}
                    end
                end
              else continue
          end
      end
  end.

(** [int getPythonInfo(std::string& filename, int& lineno, int& bytei)];
    [out] holds the caller's values of the three references. *)
Definition getPythonInfo (PyPy_FatalError_defined : bool) (realpath : FileSystem)
    (rt : PyRuntime) (p : Process) (out : Location) : Walk :=
  if negb (Py_IsInitialized rt)
     || negb (nonnull (PyGILState_GetThisThreadState rt))
  then {| consulted := []; ended := Done (0, out) |}
  else walk_frames PyPy_FatalError_defined realpath (getInstance p) BOGUS
                   (PyEval_GetFrame rt).

(* ================================================================== *)
(** ** Vocabulary of the statements *)

(** The filename the walk reads off a frame: the ASCII encoding of
    [co_filename] seen as a [char*]; [None] when the encoding fails. *)
Definition frame_filename (frame : PyFrameObject) : option string :=
  match PyUnicode_AsASCIIString (Some (co_filename (f_code frame))) with
  | None => None
  | Some encoded => Some (c_str encoded)
  end.

(** The walk goes past [frame] to its caller: the filename decodes and is
    empty, or fails the cheap test, or no filter is installed, or the
    filter returns false for it. *)
Definition passed_over (realpath : FileSystem)
    (instance : option PyStringPtrList) (frame : PyFrameObject) : bool :=
  match frame_filename frame with
  | None => false
  | Some name =>
      (strlen name =? 0)
      || negb (worth_asking name)
      || match instance with
         | None => true
         | Some this =>
             match should_trace realpath this name with
             | Done false => true
             | _ => false
             end
         end
  end.

(** A Python [str] holding the bytes of [s]. *)
Definition PyUnicode_FromString (s : string) : PyObject :=
  PyUnicode (List.map N_of_ascii (list_ascii_of_string s)).

(** ** Sample data for the concrete checks *)

Module Sample.

(** A file system where the paths under two directories exist and are
    their own canonical form, and nothing else resolves. *)
Definition two_trees : FileSystem :=
  fun path =>
    if prefix "/home/u/project/" path || prefix "/tmp/other/" path
    then Some path else None.

(** A file system in which no path resolves. *)
Definition empty_disk : FileSystem := fun _ => None.

(** The filter [register_files_to_profile(["myproj"], "/home/u/project", b)]
    builds. *)
Definition myproj (b : bool) : PyStringPtrList :=
  {| items := ["myproj"];
     scalene_base_path := "/home/u/project";
     owner := Some (PyList [PyUnicode_FromString "myproj"]);
     path_owner := Some (PyUnicode_FromString "/home/u/project");
     profile_all := b |}.

(** A frame running [name] at bytecode offset [lasti]; two bytes of
    code per line. *)
Definition frame_in (name : string) (lasti : Z) : PyFrameObject :=
  {| f_code := {| co_filename := PyUnicode_FromString name;
                  co_addr2line := fun addr => addr / 2 + 1 |};
     f_lasti := lasti |}.

(** A frame whose filename has a code point above 127. *)
Definition frame_non_ascii : PyFrameObject :=
  {| f_code := {| co_filename := PyUnicode [99%N; 233%N; 46%N; 112%N; 121%N];
                  co_addr2line := fun addr => addr / 2 + 1 |};
     f_lasti := 4 |}.

Definition no_filter : Process :=
  {| _instance := None; error_indicator := None |}.

Definition with_filter (this : PyStringPtrList) : Process :=
  {| _instance := Some this; error_indicator := None |}.

Definition running (frames : list PyFrameObject) : PyRuntime :=
  {| Py_IsInitialized := true;
     PyGILState_GetThisThreadState := Some frames |}.

End Sample.

(* ================================================================== *)
(** ** print and print_files_to_profile *)

(** What the calls of [printf] write, in order. *)
Definition TAB : ascii := ascii_of_nat 9.
Definition NEWLINE : ascii := ascii_of_nat 10.

(** [printf("\t%s\n", c)]. *)
Definition print_item (c : string) : string :=
  String TAB (c ++ String NEWLINE EmptyString).

(** The [for] loop of [print]. *)
Fixpoint print_items (items : list string) : string :=
  match items with
  | [] => EmptyString
  | c :: rest => print_item c ++ print_items rest
  end.

(** [void print()]: the flag as [%d], then one line per item. *)
Definition print (this : PyStringPtrList) : string :=
  "Profile all? " ++ (if profile_all this then "1" else "0")
  ++ String NEWLINE "items {"
  ++ print_items (items this)
  ++ String "}" (String NEWLINE EmptyString).


(* ================================================================== *)
(** ** template class PyPtr *)

Module SmartPointer.

(** Reference counts by object address.  An address with a count of 1 or
    more holds a live object; the decrement that brings a count to 0
    deallocates the object, and from then on the address holds none. *)
Definition Heap : Type := nat -> Z.

Definition update (h : Heap) (a : nat) (n : Z) : Heap :=
  fun b => if Nat.eqb b a then n else h b.

(** A call on a reference count either goes through, or touches an object
    that has been deallocated, after which nothing is defined. *)
Inductive Result (A : Type) : Type :=
| Ok (a : A)
| UseAfterFree.

Arguments Ok {A} a.
Arguments UseAfterFree {A}.

(** [Py_IncRef] and [Py_DecRef]: nothing happens on a null pointer; on an
    object the count goes up or down by one, and an object deallocated
    before is not to be touched. *)
Definition Py_IncRef (o : option nat) (h : Heap) : Result Heap :=
  match o with
  | None => Ok h
  | Some a => if 0 <? h a then Ok (update h a (h a + 1)) else UseAfterFree
  end.

Definition Py_DecRef (o : option nat) (h : Heap) : Result Heap :=
  match o with
  | None => Ok h
  | Some a => if 0 <? h a then Ok (update h a (h a - 1)) else UseAfterFree
  end.

Record PyPtr : Type := mkPyPtr { _obj : option nat }.

(** [PyPtr(O* o)]: the pointer is stored, the count is not touched. *)
Definition PyPtr_new (o : option nat) : PyPtr := {| _obj := o |}.

(** [operator=(O* o)]: [Py_DecRef((PyObject* )_obj); _obj = o;]. *)
Definition assign (this : PyPtr) (o : option nat) (h : Heap)
  : Result (PyPtr * Heap) :=
  match Py_DecRef (_obj this) h with
  | Ok h' => Ok (mkPyPtr o, h')
  | UseAfterFree => UseAfterFree
  end.

(** [operator=(PyPtr& ptr)]: [Py_IncRef((PyObject* )ptr._obj);
    *this = ptr._obj;]. *)
Definition assign_ptr (this ptr : PyPtr) (h : Heap) : Result (PyPtr * Heap) :=
  match Py_IncRef (_obj ptr) h with
  | Ok h1 => assign this (_obj ptr) h1
  | UseAfterFree => UseAfterFree
  end.

(** [~PyPtr()]. *)
Definition destroy (this : PyPtr) (h : Heap) : Result Heap :=
  Py_DecRef (_obj this) h.

(** The pointer is null or points to a live object. *)
Definition sound (h : Heap) (this : PyPtr) : Prop :=
  match _obj this with
  | None => True
  | Some a => 1 <= h a
  end.


End SmartPointer.

(* ================================================================== *)
(** ** More vocabulary *)

(** The [char*] the extension gets out of a Python object it takes for
    ASCII text; [None] when [PyUnicode_AsASCIIString] gives null. *)
Definition ascii_text (o : PyObject) : option string :=
  match PyUnicode_AsASCIIString (Some o) with
  | None => None
  | Some encoded => Some (c_str encoded)
  end.

(** The same for every element of a list, in order. *)
Fixpoint all_ascii_text (elts : list PyObject) : option (list string) :=
  match elts with
  | [] => Some []
  | o :: rest =>
      match ascii_text o, all_ascii_text rest with
      | Some s, Some l => Some (s :: l)
      | _, _ => None
      end
  end.

(** A frame at which the walk stops with a report. *)
Definition reported (realpath : FileSystem) (instance : option PyStringPtrList)
    (frame : PyFrameObject) : bool :=
  match frame_filename frame, instance with
  | Some name, Some this =>
      negb (strlen name =? 0)
      && worth_asking name
      && match should_trace realpath this name with
         | Done true => true
         | _ => false
         end
  | _, _ => false
  end.

(* ================================================================== *)
(** * Properties *)

(** ** Substrings *)

Section Substrings.

Lemma prefix_iff_append (needle haystack : string) :
  prefix needle haystack = true <-> exists rest, haystack = needle ++ rest.
Proof.
  revert haystack.
  induction needle as [|c needle IH]; intros haystack.
  - destruct haystack; simpl; split; eauto.
  - destruct haystack as [|d haystack]; simpl.
    + split; [discriminate | intros [rest H]; discriminate].
    + destruct (ascii_dec c d) as [->|Hne].
      * rewrite IH. split; intros [rest H]; exists rest.
        -- now rewrite H.
        -- now inversion H.
      * split; [discriminate|].
        intros [rest H]. inversion H. congruence.
Qed.

(** [strstr] finds the needle exactly when the haystack is some bytes,
    the needle, and some more bytes. *)
Lemma strstr_iff_substring (haystack needle : string) :
  nonnull (strstr haystack needle) = true
  <-> exists before after, haystack = before ++ needle ++ after.
Proof.
  induction haystack as [|c haystack IH].
  - cbn [strstr]. destruct (prefix needle EmptyString) eqn:Hp.
    + split; [intros _|reflexivity].
      apply prefix_iff_append in Hp. destruct Hp as [rest ->].
      now exists EmptyString, rest.
    + split; [discriminate|].
      intros [before [after H]].
      destruct before; [|discriminate]. simpl in H.
      assert (prefix needle EmptyString = true) as Hp'
        by (apply prefix_iff_append; now exists after).
      congruence.
  - cbn [strstr].
    destruct (prefix needle (String c haystack)) eqn:Hp.
    + split; [intros _|reflexivity].
      apply prefix_iff_append in Hp. destruct Hp as [rest ->].
      now exists EmptyString, rest.
    + rewrite IH. split.
      * intros [before [after ->]]. now exists (String c before), after.
      * intros [before [after H]].
        destruct before as [|d before].
        -- simpl in H.
           assert (prefix needle (String c haystack) = true) as Hp'
             by (apply prefix_iff_append; now exists after).
           congruence.
        -- inversion H. now exists before, after.
Qed.

Lemma append_assoc (a b c : string) : (a ++ b) ++ c = a ++ b ++ c.
Proof. induction a; simpl; congruence. Qed.

(** A haystack that holds a needle holds every piece of the needle. *)
Lemma strstr_piece (haystack needle left piece right : string) :
  needle = left ++ piece ++ right ->
  nonnull (strstr haystack needle) = true ->
  nonnull (strstr haystack piece) = true.
Proof.
  intros -> H.
  apply strstr_iff_substring in H. destruct H as [before [after ->]].
  apply strstr_iff_substring.
  exists (before ++ left), (right ++ after).
  now rewrite !append_assoc.
Qed.

Lemma lib_python_has_python (name : string) :
  nonnull (strstr name "/lib/python") = true ->
  nonnull (strstr name "/python") = true.
Proof. apply (strstr_piece name "/lib/python" "/lib" "/python" EmptyString). reflexivity. Qed.

End Substrings.

(* ================================================================== *)
(** ** The filter: construction *)

Section Construction.

(** A constructed filter holds the list it was built from: its [owner]
    is never null. *)
Lemma PyStringPtrList_new_owner (list_wrapper base_path : PyObject) (b : bool)
    (this : PyStringPtrList) :
  PyStringPtrList_new list_wrapper base_path b = Done this ->
  owner this = Some list_wrapper /\ profile_all this = b.
Proof.
  unfold PyStringPtrList_new.
  destruct (vector_reserve _); simpl; [|discriminate].
  destruct (push_items _ _ _ _); simpl; [|discriminate].
  destruct (PyBytes_AsString _); simpl; [|discriminate].
  intros [= <-]. now split.
Qed.

(** Anything that is not a list fails in [reserve]. *)
Lemma PyStringPtrList_new_not_list (list_wrapper base_path : PyObject) (b : bool) :
  PyList_Check list_wrapper = false ->
  PyStringPtrList_new list_wrapper base_path b = Fatal uncaught_length_error.
Proof.
  intros H. unfold PyStringPtrList_new.
  replace (PyList_Size list_wrapper) with (-1)
    by (destruct list_wrapper; simpl in *; congruence).
  reflexivity.
Qed.

Example myproj_is_constructed (b : bool) :
  PyStringPtrList_new (PyList [PyUnicode_FromString "myproj"])
                      (PyUnicode_FromString "/home/u/project") b
  = Done (Sample.myproj b).
Proof. destruct b; reflexivity. Qed.

(** A fragment with a code point above 127 ends the process in the
    constructor. *)
Example non_ascii_fragment_is_fatal :
  PyStringPtrList_new (PyList [PyUnicode [233%N]])
                      (PyUnicode_FromString "/home/u/project") false
  = Fatal null_dereference.
Proof. reflexivity. Qed.

End Construction.

(* ================================================================== *)
(** ** The filter: classification *)

Section Classification.

Variable realpath : FileSystem.
Variable this : PyStringPtrList.

(** C2.  A filename that contains "site-packages" or "/lib/python" is
    not traceable, whatever the fragments, the base path and the file
    system are: the library test comes first. *)
Theorem should_trace_library_first (filename : string) :
  nonnull (strstr filename "site-packages") = true
  \/ nonnull (strstr filename "/lib/python") = true ->
  should_trace realpath this filename = Done false.
Proof.
  intros H. unfold should_trace.
  destruct H as [-> | ->]; [reflexivity|].
  now rewrite orb_true_r.
Qed.

(** C3.  With no library marker, no interactive source, no profiler
    marker and no matching fragment, the answer is that of the last rule:
    [realpath] is asked; its failure is [abort()], and otherwise the
    answer is whether the canonical path contains the base path. *)
Theorem should_trace_last_rule (filename : string) :
  nonnull (strstr filename "site-packages") = false ->
  nonnull (strstr filename "/lib/python") = false ->
  Ascii.eqb (first_char filename) "<"%char
    && nonnull (strstr filename "<ipython") = false ->
  nonnull (strstr filename "scalene/scalene") = false ->
  (forall traceable, In traceable (items this) ->
                     nonnull (strstr filename traceable) = false) ->
  should_trace realpath this filename =
    match realpath filename with
    | None => Fatal abort_called
    | Some canonical =>
        Done (nonnull (strstr canonical (scalene_base_path this)))
    end.
Proof.
  intros H1 H2 H3 H4 H5. unfold should_trace.
  rewrite H1, H2, H3, H4. cbn [orb].
  replace (existsb _ (items this)) with false; [now rewrite andb_false_r|].
  symmetry. apply not_true_is_false. intros He.
  apply existsb_exists in He. destruct He as [t [Hin Ht]].
  rewrite (H5 t Hin) in Ht. discriminate.
Qed.

End Classification.

Section FragmentRule.

(** C9.  When the library and profiler tests do not fire and a configured
    fragment occurs in the filename, the answer is true on every file
    system, also one where the path resolves nowhere: [realpath] is not
    reached. *)
Theorem should_trace_fragment_match
    (list_wrapper base_path : PyObject) (b : bool) (this : PyStringPtrList)
    (filename traceable : string) :
  PyStringPtrList_new list_wrapper base_path b = Done this ->
  nonnull (strstr filename "site-packages") = false ->
  nonnull (strstr filename "/lib/python") = false ->
  nonnull (strstr filename "scalene/scalene") = false ->
  In traceable (items this) ->
  nonnull (strstr filename traceable) = true ->
  forall realpath : FileSystem, should_trace realpath this filename = Done true.
Proof.
  intros Hnew H1 H2 H3 Hin Hsub realpath.
  apply PyStringPtrList_new_owner in Hnew. destruct Hnew as [Hown _].
  unfold should_trace. rewrite H1, H2, H3, Hown. cbn [orb nonnull andb].
  destruct (_ && _); [reflexivity|].
  replace (existsb _ (items this)) with true; [reflexivity|].
  symmetry. apply existsb_exists. now exists traceable.
Qed.

(** The flag is stored and never read by [should_trace]. *)
Lemma should_trace_flag_irrelevant (realpath : FileSystem)
    (its : list string) (base : string) (o po : option PyObject)
    (b1 b2 : bool) (filename : string) :
  should_trace realpath (mkPyStringPtrList its base o po b1) filename
  = should_trace realpath (mkPyStringPtrList its base o po b2) filename.
Proof. reflexivity. Qed.

(** C10.  Building the filter with [profile_all] true or false and then
    classifying gives the same outcome, for every scope object, base
    path, filename and file system. *)
Theorem should_trace_ignores_profile_all (realpath : FileSystem)
    (list_wrapper base_path : PyObject) (filename : string) :
  (this <- PyStringPtrList_new list_wrapper base_path true ;;
   should_trace realpath this filename)
  = (this <- PyStringPtrList_new list_wrapper base_path false ;;
     should_trace realpath this filename).
Proof.
  unfold PyStringPtrList_new.
  destruct (vector_reserve _); simpl; [|reflexivity].
  destruct (push_items _ _ _ _); simpl; [|reflexivity].
  destruct (PyBytes_AsString _); simpl; reflexivity.
Qed.

End FragmentRule.

(** *** Concrete checks of the classification *)

Lemma should_trace_library_first_witness :
  existsb (fun t => nonnull (strstr "/x/site-packages/myproj/mod.py" t))
          (items (Sample.myproj false)) = true
  /\ should_trace Sample.two_trees (Sample.myproj false)
                  "/x/site-packages/myproj/mod.py" = Done false.
Proof.
  split; [reflexivity|].
  apply (should_trace_library_first Sample.two_trees (Sample.myproj false)).
  left. reflexivity.
Defined.

Lemma should_trace_last_rule_witness :
  should_trace Sample.two_trees (Sample.myproj false) "/home/u/project/sub/a.py"
  = Done true.
Proof.
  apply (should_trace_last_rule Sample.two_trees (Sample.myproj false)
           "/home/u/project/sub/a.py"); try reflexivity.
  intros traceable [<- | []]. reflexivity.
Defined.

Lemma should_trace_fragment_match_witness :
  Sample.empty_disk "/srv/elsewhere/myproj/run.py" = None
  /\ should_trace Sample.empty_disk (Sample.myproj false)
                  "/srv/elsewhere/myproj/run.py" = Done true.
Proof.
  split; [reflexivity|].
  apply (should_trace_fragment_match
           (PyList [PyUnicode_FromString "myproj"])
           (PyUnicode_FromString "/home/u/project") false
           (Sample.myproj false) "/srv/elsewhere/myproj/run.py" "myproj");
    try reflexivity.
  left. reflexivity.
Defined.

(** The base-path rule on the sample file system: inside the project,
    outside it, and a path that does not resolve. *)
Example base_path_rule_samples :
  let this := {| items := []; scalene_base_path := "/home/u/project";
                 owner := Some (PyList []);
                 path_owner := Some (PyUnicode_FromString "/home/u/project");
                 profile_all := false |} in
  should_trace Sample.two_trees this "/home/u/project/sub/a.py" = Done true
  /\ should_trace Sample.two_trees this "/tmp/other/a.py" = Done false
  /\ should_trace Sample.two_trees this "/nowhere/a.py" = Fatal abort_called
  /\ should_trace Sample.two_trees this "<ipython-input-3-abcd>" = Done true
  /\ should_trace Sample.two_trees this "/opt/scalene/scalene/x.py" = Done false.
Proof. repeat split. Qed.

(* ================================================================== *)
(** ** The stack walk *)

Local Open Scope list_scope.

Section StackWalk.

Variable PyPy_FatalError_defined : bool.
Variable realpath : FileSystem.
Variable instance : option PyStringPtrList.
Variable out : Location.

Local Abbreviation walk :=
  (walk_frames PyPy_FatalError_defined realpath instance out).

Lemma walk_eta (w : Walk) : {| consulted := consulted w; ended := ended w |} = w.
Proof. now destruct w. Qed.

(** The walk from a frame depends on the frames behind it only through
    the walk from its caller. *)
Lemma walk_cons_congr (frame : PyFrameObject) (back back' : list PyFrameObject) :
  walk back = walk back' -> walk (frame :: back) = walk (frame :: back').
Proof.
  unfold walk. intros H. cbn [walk_frames]. now rewrite H.
Qed.

(** A frame whose filename holds one of the three markers of the cheap
    test is stepped over without a call to the filter. *)
Lemma walk_marked_frame (frame : PyFrameObject) (back : list PyFrameObject)
    (name : string) :
  frame_filename frame = Some name ->
  worth_asking name = false ->
  walk (frame :: back) = walk back.
Proof.
  unfold walk, frame_filename. intros Hname Hmark. cbn [walk_frames].
  destruct (PyUnicode_AsASCIIString _) as [encoded|]; [|discriminate].
  injection Hname as <-. cbn [PyBytes_AsString].
  rewrite Hmark. now destruct (strlen _ =? 0).
Qed.

(** A frame that is passed over adds at most its own filename to the
    record and leaves the end of the walk to the frames behind it. *)
Lemma walk_passed_over (frame : PyFrameObject) (back : list PyFrameObject) :
  passed_over realpath instance frame = true ->
  walk (frame :: back)
  = {| consulted := (consulted (walk [frame]) ++ consulted (walk back))%list;
       ended := ended (walk back) |}.
Proof.
  unfold walk, passed_over, frame_filename. intros H. cbn [walk_frames].
  destruct (PyUnicode_AsASCIIString _) as [encoded|]; [|discriminate].
  cbn [PyBytes_AsString].
  destruct (strlen (c_str encoded) =? 0);
    [cbn [consulted app]; now rewrite walk_eta|].
  destruct (worth_asking (c_str encoded));
    [|cbn [consulted app]; now rewrite walk_eta].
  destruct instance as [this|];
    [|cbn [consulted app]; now rewrite walk_eta].
  cbn [orb negb] in H.
  destruct (should_trace realpath this (c_str encoded)) as [[|]|];
    try discriminate.
  reflexivity.
Qed.

Lemma walk_passed_over_app (pre back : list PyFrameObject) :
  Forall (fun f => passed_over realpath instance f = true) pre ->
  walk (pre ++ back)
  = {| consulted := (consulted (walk pre) ++ consulted (walk back))%list;
       ended := ended (walk back) |}.
Proof.
  induction 1 as [|frame pre Hf _ IH].
  - cbn [app]. unfold walk at 2. cbn [walk_frames consulted app].
    now rewrite walk_eta.
  - cbn [app].
    rewrite (walk_passed_over frame (pre ++ back)) by assumption.
    rewrite (walk_passed_over frame pre) by assumption.
    rewrite IH. cbn [consulted ended]. now rewrite app_assoc.
Qed.

(** The walk reports a frame only after the cheap test let it through. *)
Lemma walk_found_worth_asking (frames : list PyFrameObject) (r : Z) (loc : Location) :
  ended (walk frames) = Done (r, loc) ->
  r <> 0 ->
  worth_asking (filename loc) = true.
Proof.
  unfold walk. induction frames as [|frame back IH]; cbn [walk_frames].
  - intros [= <- _] Hr. contradiction.
  - destruct (PyUnicode_AsASCIIString _) as [encoded|];
      [|intros [= <- _] Hr; contradiction].
    cbn [PyBytes_AsString].
    destruct (strlen (c_str encoded) =? 0); [exact IH|].
    destruct (worth_asking (c_str encoded)) eqn:Hw; [|exact IH].
    destruct instance as [this|]; [|exact IH].
    destruct (should_trace realpath this (c_str encoded)) as [[|]|].
    + cbn [ended]. intros [= _ <-] _. exact Hw.
    + exact IH.
    + discriminate.
Qed.

(** Without a filter the walk asks nothing and finds nothing. *)
Lemma walk_without_filter (frames : list PyFrameObject) :
  instance = None ->
  walk frames = {| consulted := []; ended := Done (0, out) |}.
Proof.
  unfold walk. intros ->.
  induction frames as [|frame back IH]; cbn [walk_frames]; [reflexivity|].
  destruct (PyUnicode_AsASCIIString _) as [encoded|]; [|reflexivity].
  cbn [PyBytes_AsString].
  destruct (strlen _ =? 0); [exact IH|].
  destruct (worth_asking _); exact IH.
Qed.

End StackWalk.

(* ================================================================== *)
(** ** getPythonInfo *)

Section Locator.

Variable PyPy_FatalError_defined : bool.
Variable realpath : FileSystem.
Variable p : Process.
Variable out : Location.

Local Abbreviation locate rt :=
  (getPythonInfo PyPy_FatalError_defined realpath rt p out).

(** With an interpreter and a thread state, the call is the walk over
    the thread's frames, started from the sentinel. *)
Lemma getPythonInfo_running (frames : list PyFrameObject) :
  locate (mkRuntime true (Some frames))
  = walk_frames PyPy_FatalError_defined realpath (getInstance p) BOGUS frames.
Proof. reflexivity. Qed.

(** Without an interpreter or a thread state the call returns 0 at once
    and leaves the three references as they were. *)
Lemma getPythonInfo_no_stack (rt : PyRuntime) :
  Py_IsInitialized rt = false \/ PyGILState_GetThisThreadState rt = None ->
  locate rt = {| consulted := []; ended := Done (0, out) |}.
Proof.
  unfold locate, getPythonInfo. intros [-> | ->]; [reflexivity|].
  now rewrite orb_true_r.
Qed.

Lemma marker_fails_cheap_test (name : string) :
  nonnull (strstr name "<") = true
  \/ nonnull (strstr name "/python") = true
  \/ nonnull (strstr name "/lib/python") = true
  \/ nonnull (strstr name "scalene/scalene") = true ->
  worth_asking name = false.
Proof.
  unfold worth_asking. intros [H | [H | [H | H]]].
  - now rewrite H.
  - rewrite H. apply andb_false_iff. left. apply andb_false_r.
  - rewrite (lib_python_has_python name H).
    apply andb_false_iff. left. apply andb_false_r.
  - rewrite H. apply andb_false_r.
Qed.

(** C4.  A frame whose decoded filename contains "<", the library
    marker ("/python", hence also "/lib/python") or "scalene/scalene" is
    skipped: the loop at that frame does what the loop at its caller
    does, with nothing added to the record of filter calls; and the whole
    call, wherever the frame sits in the stack, ends as it does on the
    stack without that frame.  This holds for every filter, also one
    that would abort or answer true on that filename. *)
Theorem getPythonInfo_skips_marked_frame
    (initialized : bool) (pre post : list PyFrameObject)
    (frame : PyFrameObject) (name : string) :
  frame_filename frame = Some name ->
  nonnull (strstr name "<") = true
  \/ nonnull (strstr name "/python") = true
  \/ nonnull (strstr name "/lib/python") = true
  \/ nonnull (strstr name "scalene/scalene") = true ->
  (forall instance start,
      walk_frames PyPy_FatalError_defined realpath instance start (frame :: post)
      = walk_frames PyPy_FatalError_defined realpath instance start post)
  /\ locate (mkRuntime initialized (Some (pre ++ frame :: post)))
     = locate (mkRuntime initialized (Some (pre ++ post))).
Proof.
  intros Hname Hmark. apply marker_fails_cheap_test in Hmark.
  assert (forall instance start,
    walk_frames PyPy_FatalError_defined realpath instance start (frame :: post)
    = walk_frames PyPy_FatalError_defined realpath instance start post) as Hstep
    by (intros; now apply walk_marked_frame with (name := name)).
  split; [exact Hstep|].
  destruct initialized; [|reflexivity].
  rewrite !getPythonInfo_running.
  induction pre as [|f pre IH]; cbn [app]; [apply Hstep|].
  now apply walk_cons_congr.
Qed.

(** C5.  Whenever the call reports a frame (a non-zero return), the
    filename it hands back contains none of "<", "/python" and
    "scalene/scalene". *)
Theorem getPythonInfo_found_unmarked (rt : PyRuntime) (r : Z) (loc : Location) :
  ended (locate rt) = Done (r, loc) ->
  r <> 0 ->
  nonnull (strstr (filename loc) "<") = false
  /\ nonnull (strstr (filename loc) "/python") = false
  /\ nonnull (strstr (filename loc) "scalene/scalene") = false.
Proof.
  unfold locate, getPythonInfo.
  destruct (negb (Py_IsInitialized rt) || _).
  - cbn [ended]. intros [= <- _] Hr. contradiction.
  - intros Hend Hr.
    pose proof (walk_found_worth_asking _ _ _ _ _ _ _ Hend Hr) as Hw.
    unfold worth_asking in Hw.
    apply andb_true_iff in Hw. destruct Hw as [Hw H3].
    apply andb_true_iff in Hw. destruct Hw as [H1 H2].
    repeat split; now apply negb_true_iff.
Qed.

(** C8.  With no filter installed the call never ends the process, asks
    no filter and returns 0 on every runtime; on every stack the three
    references hold the sentinel. *)
Theorem getPythonInfo_without_filter :
  getInstance p = None ->
  (forall rt, exists loc,
      locate rt = {| consulted := []; ended := Done (0, loc) |})
  /\ (forall frames,
      locate (mkRuntime true (Some frames))
      = {| consulted := []; ended := Done (0, BOGUS) |}).
Proof.
  intros Hnone.
  assert (forall frames,
    locate (mkRuntime true (Some frames))
    = {| consulted := []; ended := Done (0, BOGUS) |}) as Hstack.
  { intros frames. rewrite getPythonInfo_running.
    now apply walk_without_filter. }
  split; [|exact Hstack].
  intros [[|] [frames|]].
  - exists BOGUS. apply Hstack.
  - exists out. apply getPythonInfo_no_stack. now right.
  - exists out. apply getPythonInfo_no_stack. now left.
  - exists out. apply getPythonInfo_no_stack. now left.
Qed.

(** C7.  When the walk comes to a frame whose filename does not decode
    (the frames before it passed over), the call returns 0 with the
    sentinel, whatever the outer frames are, and no filter call is made
    for the frame or for anything behind it. *)
Theorem getPythonInfo_undecodable_frame
    (pre post : list PyFrameObject) (frame : PyFrameObject) :
  Forall (fun f => passed_over realpath (getInstance p) f = true) pre ->
  PyUnicode_AsASCIIString (Some (co_filename (f_code frame))) = None ->
  let w := locate (mkRuntime true (Some (pre ++ frame :: post))) in
  ended w = Done (0, BOGUS)
  /\ consulted w = consulted (locate (mkRuntime true (Some pre))).
Proof.
  intros Hpre Hdec. cbv zeta.
  rewrite !getPythonInfo_running.
  rewrite walk_passed_over_app by assumption. cbn [ended consulted].
  cbn [walk_frames]. rewrite Hdec. cbn [ended consulted].
  now rewrite app_nil_r.
Qed.

Variable this : PyStringPtrList.
Hypothesis installed : getInstance p = Some this.

(** C6, amended.  With an interpreter, a thread state and a filter
    installed, let the frames before [frame] be passed over (each decodes,
    and is empty, or fails the cheap test, or is answered false by the
    filter: none fails to decode and on none does the filter abort), and
    let [frame] have a non-empty filename that passes the cheap test and
    that the filter classifies traceable.  Then the
    call returns 1 with that filename, the frame's instruction offset
    (0 on a PyPy build) and the line of that offset; the last filter call
    is the one on [frame], whatever the outer frames are. *)
Theorem getPythonInfo_first_match
    (pre post : list PyFrameObject) (frame : PyFrameObject) (name : string) :
  Forall (fun f => passed_over realpath (Some this) f = true) pre ->
  frame_filename frame = Some name ->
  name <> EmptyString ->
  worth_asking name = true ->
  should_trace realpath this name = Done true ->
  let w := locate (mkRuntime true (Some (pre ++ frame :: post))) in
  let b := frame_bytei PyPy_FatalError_defined frame in
  ended w = Done (1, {| filename := name;
                        lineno := PyCode_Addr2Line (f_code frame) b;
                        bytei := b |})
  /\ consulted w
     = (consulted (locate (mkRuntime true (Some pre))) ++ [name])%list.
Proof.
  intros Hpre Hname Hne Hw Htrace. cbv zeta.
  rewrite !getPythonInfo_running, installed.
  rewrite walk_passed_over_app by assumption. cbn [ended consulted].
  unfold frame_filename in Hname. cbn [walk_frames].
  destruct (PyUnicode_AsASCIIString _) as [encoded|]; [|discriminate].
  injection Hname as Hname. cbn [PyBytes_AsString]. rewrite Hname.
  replace (strlen name =? 0) with false
    by (destruct name; [contradiction | reflexivity]).
  rewrite Hw, Htrace. now split.
Qed.

End Locator.

(** *** Concrete checks of the walk *)

Lemma getPythonInfo_skips_marked_frame_witness :
  getPythonInfo false Sample.two_trees
    (Sample.running [Sample.frame_in "/home/u/project/a.py" 2;
                     Sample.frame_in "<string>" 6;
                     Sample.frame_in "/home/u/project/app.py" 10])
    (Sample.with_filter (Sample.myproj false)) BOGUS
  = getPythonInfo false Sample.two_trees
      (Sample.running [Sample.frame_in "/home/u/project/a.py" 2;
                       Sample.frame_in "/home/u/project/app.py" 10])
      (Sample.with_filter (Sample.myproj false)) BOGUS.
Proof.
  apply (getPythonInfo_skips_marked_frame false Sample.two_trees
           (Sample.with_filter (Sample.myproj false)) BOGUS true
           [Sample.frame_in "/home/u/project/a.py" 2]
           [Sample.frame_in "/home/u/project/app.py" 10]
           (Sample.frame_in "<string>" 6) "<string>").
  - reflexivity.
  - left. reflexivity.
Defined.

Lemma getPythonInfo_found_unmarked_witness :
  nonnull (strstr "/home/u/project/app.py" "<") = false
  /\ nonnull (strstr "/home/u/project/app.py" "/python") = false
  /\ nonnull (strstr "/home/u/project/app.py" "scalene/scalene") = false.
Proof.
  apply (getPythonInfo_found_unmarked false Sample.two_trees
           (Sample.with_filter (Sample.myproj false)) BOGUS
           (Sample.running [Sample.frame_in "<ipython-input-3-abcd>" 6;
                            Sample.frame_in "/home/u/project/app.py" 10])
           1 {| filename := "/home/u/project/app.py"; lineno := 6; bytei := 10 |}).
  - reflexivity.
  - discriminate.
Defined.

(** The filter calls both kinds of file traceable that the walk never
    reports: an interactive source, and a fragment match under "/python". *)
Example traceable_but_never_located :
  should_trace Sample.empty_disk (Sample.myproj false) "<ipython-input-3-abcd>"
  = Done true
  /\ should_trace Sample.empty_disk (Sample.myproj false) "/opt/python/myproj/run.py"
     = Done true
  /\ getPythonInfo false Sample.empty_disk
       (Sample.running [Sample.frame_in "<ipython-input-3-abcd>" 6;
                        Sample.frame_in "/opt/python/myproj/run.py" 10])
       (Sample.with_filter (Sample.myproj false)) BOGUS
     = {| consulted := []; ended := Done (0, BOGUS) |}.
Proof. repeat split. Qed.

Lemma getPythonInfo_without_filter_witness :
  getPythonInfo false Sample.two_trees
    (Sample.running [Sample.frame_in "/home/u/project/app.py" 10])
    Sample.no_filter {| filename := "earlier.py"; lineno := 7; bytei := 3 |}
  = {| consulted := []; ended := Done (0, BOGUS) |}.
Proof.
  apply (getPythonInfo_without_filter false Sample.two_trees Sample.no_filter).
  reflexivity.
Defined.

(** The claim C6 as worded fails: the innermost frame that the filter
    classifies traceable is the interactive one, yet the call reports the
    frame behind it. *)
Lemma first_traceable_frame_not_returned :
  let inner := Sample.frame_in "<ipython-input-3-abcd>" 6 in
  let outer := Sample.frame_in "/home/u/project/app.py" 10 in
  frame_filename inner = Some "<ipython-input-3-abcd>"
  /\ should_trace Sample.two_trees (Sample.myproj false) "<ipython-input-3-abcd>"
     = Done true
  /\ getPythonInfo false Sample.two_trees (Sample.running [inner; outer])
       (Sample.with_filter (Sample.myproj false)) BOGUS
     = {| consulted := ["/home/u/project/app.py"%string];
          ended := Done (1, {| filename := "/home/u/project/app.py";
                               lineno := 6; bytei := 10 |}) |}
  /\ getPythonInfo false Sample.two_trees (Sample.running [inner])
       (Sample.with_filter (Sample.myproj false)) BOGUS
     = {| consulted := []; ended := Done (0, BOGUS) |}.
Proof. repeat split. Qed.

Lemma getPythonInfo_first_match_witness :
  let w :=
    getPythonInfo false Sample.two_trees
      (Sample.running [Sample.frame_in "/usr/lib/python3.8/runpy.py" 4;
                       Sample.frame_in "/tmp/other/lib.py" 2;
                       Sample.frame_in "/home/u/project/app.py" 10;
                       Sample.frame_in "/srv/myproj/lib2.py" 8])
      (Sample.with_filter (Sample.myproj false)) BOGUS in
  ended w = Done (1, {| filename := "/home/u/project/app.py";
                        lineno := 6; bytei := 10 |})
  /\ consulted w = ["/tmp/other/lib.py"%string; "/home/u/project/app.py"%string].
Proof.
  apply (getPythonInfo_first_match false Sample.two_trees
           (Sample.with_filter (Sample.myproj false)) BOGUS
           (Sample.myproj false) eq_refl
           [Sample.frame_in "/usr/lib/python3.8/runpy.py" 4;
            Sample.frame_in "/tmp/other/lib.py" 2]
           [Sample.frame_in "/srv/myproj/lib2.py" 8]
           (Sample.frame_in "/home/u/project/app.py" 10)
           "/home/u/project/app.py").
  - repeat (constructor; [reflexivity|]). constructor.
  - reflexivity.
  - discriminate.
  - reflexivity.
  - reflexivity.
Defined.

Lemma getPythonInfo_undecodable_frame_witness :
  let w :=
    getPythonInfo false Sample.two_trees
      (Sample.running [Sample.frame_in "/tmp/other/lib.py" 2;
                       Sample.frame_non_ascii;
                       Sample.frame_in "/home/u/project/app.py" 10])
      (Sample.with_filter (Sample.myproj false))
      {| filename := "earlier.py"; lineno := 7; bytei := 3 |} in
  ended w = Done (0, BOGUS) /\ consulted w = ["/tmp/other/lib.py"%string].
Proof.
  apply (getPythonInfo_undecodable_frame false Sample.two_trees
           (Sample.with_filter (Sample.myproj false))
           {| filename := "earlier.py"; lineno := 7; bytei := 3 |}
           [Sample.frame_in "/tmp/other/lib.py" 2]
           [Sample.frame_in "/home/u/project/app.py" 10]
           Sample.frame_non_ascii).
  - repeat (constructor; [reflexivity|]). constructor.
  - reflexivity.
Defined.

(* ================================================================== *)
(** ** Registration *)

Section Registration.

Variable p : Process.

(** A scope object that is not a list gets the exception set and is then
    handed to the constructor all the same; the call does not return. *)
Lemma register_files_to_profile_not_list
    (a_list base_path flag : PyObject) :
  PyList_Check a_list = false ->
  register_files_to_profile p [a_list; base_path; flag]
  = Fatal uncaught_length_error.
Proof.
  intros H. unfold register_files_to_profile. cbn [PyArg_ParseTuple_OOp].
  now rewrite PyStringPtrList_new_not_list.
Qed.

(** The call returns NULL only when the argument tuple does not parse;
    whenever it returns after parsing, a new filter is installed. *)
Lemma register_files_to_profile_returns (args : list PyObject)
    (result : option PyObject) (p' : Process) :
  register_files_to_profile p args = Done (result, p') ->
  (result = None /\ PyArg_ParseTuple_OOp args = None /\ _instance p' = _instance p)
  \/ (result = Some PyNone
      /\ exists a_list base_path flag this,
           PyArg_ParseTuple_OOp args = Some (a_list, base_path, flag)
           /\ PyList_Check a_list = true
           /\ PyStringPtrList_new a_list base_path flag = Done this
           /\ _instance p' = Some this).
Proof.
  unfold register_files_to_profile.
  destruct (PyArg_ParseTuple_OOp args) as [[[a_list base_path] flag]|].
  - destruct (PyList_Check a_list) eqn:Hl.
    + destruct (PyStringPtrList_new a_list base_path flag) as [this|] eqn:Hn;
        cbn [bind]; [|discriminate].
      intros [= <- <-]. right. split; [reflexivity|].
      now exists a_list, base_path, flag, this.
    + now rewrite PyStringPtrList_new_not_list.
  - intros [= <- <-]. left. now repeat split.
Qed.

End Registration.

(** C1, on a tuple as scope object.  The claim asks for the error to be
    reported (a NULL return with the exception pending) and the installed
    filter to stay; the call instead ends the process in the constructor. *)
Theorem register_files_to_profile_tuple_scope :
  let p := Sample.with_filter (Sample.myproj false) in
  let args := [PyTuple [PyUnicode_FromString "other"];
               PyUnicode_FromString "/home/u/project"; PyBool false] in
  PyList_Check (PyTuple [PyUnicode_FromString "other"]) = false
  /\ register_files_to_profile p args = Fatal uncaught_length_error
  /\ register_files_to_profile p args
     <> Done (None, PyErr_SetString
                      (PyExc_Exception "Requires list or list-like object") p).
Proof. repeat split. discriminate. Qed.

(** Registration with a list installs the new filter and returns None. *)
Example register_files_to_profile_list :
  register_files_to_profile Sample.no_filter
    [PyList [PyUnicode_FromString "myproj"];
     PyUnicode_FromString "/home/u/project"; PyBool true]
  = Done (Some PyNone, Sample.with_filter (Sample.myproj true)).
Proof. reflexivity. Qed.

(* ================================================================== *)
(** * Further properties of the code *)

(** ** The constructor on a list *)

Section ConstructorOnList.

Lemma skipn_nth_error (elts : list PyObject) (i : nat) :
  (i < List.length elts)%nat ->
  exists o, nth_error elts i = Some o /\ skipn i elts = o :: skipn (S i) elts.
Proof.
  revert i. induction elts as [|x elts IH]; intros i Hi; simpl in Hi.
  - lia.
  - destruct i as [|i].
    + exists x. now split.
    + destruct (IH i) as [o [Hn Hs]]; [lia|]. exists o. now split.
Qed.

(** Below [INT_MAX] elements the counter stays in range: the loop pushes
    the text of the elements from index [i] on, in order, and ends the
    process at the first element that has none. *)
Lemma push_items_from (elts : list PyObject) (n i : nat) (acc : list string) :
  (i + n = List.length elts)%nat ->
  Z.of_nat (List.length elts) <= INT_MAX ->
  push_items (PyList elts) i n acc
  = match all_ascii_text (skipn i elts) with
    | Some l => Done (acc ++ l)
    | None => Fatal null_dereference
    end.
Proof.
  revert i acc. induction n as [|n IH]; intros i acc Hlen Hmax.
  - replace i with (List.length elts) by lia.
    rewrite skipn_all. cbn. now rewrite app_nil_r.
  - destruct (skipn_nth_error elts i) as [o [Hn Hs]]; [lia|].
    cbn [push_items PyList_GetItem]. rewrite Hn, Hs.
    cbn [all_ascii_text]. unfold ascii_text.
    destruct (PyUnicode_AsASCIIString (Some o)) as [encoded|];
      cbn [PyBytes_AsString bind]; [|reflexivity].
    unfold int_succ.
    destruct (Z.ltb_spec (Z.of_nat i) INT_MAX) as [_|Hge]; [|lia].
    cbn [bind]. rewrite IH by lia.
    destruct (all_ascii_text (skipn (S i) elts)); [|reflexivity].
    now rewrite <- app_assoc.
Qed.

(** Whatever the length, a loop that comes to its end has pushed the text
    of the elements from index [i] on, in order. *)
Lemma push_items_done (elts : list PyObject) (n i : nat)
    (acc its : list string) :
  (i + n = List.length elts)%nat ->
  push_items (PyList elts) i n acc = Done its ->
  exists l, all_ascii_text (skipn i elts) = Some l /\ its = acc ++ l.
Proof.
  revert i acc. induction n as [|n IH]; intros i acc Hlen.
  - replace i with (List.length elts) by lia.
    rewrite skipn_all. cbn. intros [= <-]. exists []. now rewrite app_nil_r.
  - destruct (skipn_nth_error elts i) as [o [Hn Hs]]; [lia|].
    cbn [push_items PyList_GetItem]. rewrite Hn, Hs.
    cbn [all_ascii_text]. unfold ascii_text.
    destruct (PyUnicode_AsASCIIString (Some o)) as [encoded|];
      cbn [PyBytes_AsString bind]; [|discriminate].
    unfold int_succ. destruct (Z.of_nat i <? INT_MAX); cbn [bind];
      [|discriminate].
    intros Hdone. apply IH in Hdone; [|lia].
    destruct Hdone as [l [-> ->]]. exists (c_str encoded :: l).
    split; [reflexivity | now rewrite <- app_assoc].
Qed.

Lemma vector_reserve_list (elts : list PyObject) :
  Z.of_nat (List.length elts) <= INT_MAX ->
  vector_reserve (PyList_Size (PyList elts)) = Done tt.
Proof.
  unfold vector_reserve, vector_max_size, SIZE_MAX, INT_MAX, PyList_Size.
  intros H. rewrite Z.mod_small by lia.
  destruct (Z.ltb_spec (2 ^ 60 - 1) (Z.of_nat (List.length elts)));
    [lia | reflexivity].
Qed.

Lemma PyStringPtrList_new_on_list (elts : list PyObject) (base_path : PyObject)
    (b : bool) :
  Z.of_nat (List.length elts) <= INT_MAX ->
  PyStringPtrList_new (PyList elts) base_path b
  = match all_ascii_text elts, ascii_text base_path with
    | Some its, Some base =>
        Done {| items := its; scalene_base_path := base;
                owner := Some (PyList elts); path_owner := Some base_path;
                profile_all := b |}
    | _, _ => Fatal null_dereference
    end.
Proof.
  intros Hlen. unfold PyStringPtrList_new.
  rewrite vector_reserve_list by assumption. cbn [bind].
  cbn [PyList_Size]. rewrite Nat2Z.id.
  rewrite push_items_from by (reflexivity || assumption). cbn [skipn app].
  unfold ascii_text.
  destruct (all_ascii_text elts) as [its|]; cbn [bind]; [|reflexivity].
  destruct (PyUnicode_AsASCIIString (Some base_path)); reflexivity.
Qed.

Lemma all_ascii_text_none (elts : list PyObject) (o : PyObject) :
  In o elts -> ascii_text o = None -> all_ascii_text elts = None.
Proof.
  induction elts as [|x elts IH]; intros Hin Ho; [contradiction|].
  cbn [all_ascii_text]. destruct Hin as [-> | Hin].
  - now rewrite Ho.
  - rewrite (IH Hin Ho). now destruct (ascii_text x).
Qed.

Lemma all_ascii_text_length (elts : list PyObject) (its : list string) :
  all_ascii_text elts = Some its -> List.length its = List.length elts.
Proof.
  revert its. induction elts as [|x elts IH]; intros its; cbn [all_ascii_text].
  - now intros [= <-].
  - destruct (ascii_text x); [|discriminate].
    destruct (all_ascii_text elts) as [l|]; [|discriminate].
    intros [= <-]. cbn. now rewrite (IH l).
Qed.

(** X1.  Built from a list of at most [INT_MAX] elements (so that the
    [int] counter of the loop stays in range) whose elements and base path
    are all ASCII [str] objects, the filter holds the text of every
    element, one item per element and in the order of the list, the text
    of the base path, the two objects and the flag. *)
Theorem PyStringPtrList_new_copies_list (elts : list PyObject)
    (base_path : PyObject) (b : bool) (its : list string) (base : string) :
  Z.of_nat (List.length elts) <= INT_MAX ->
  all_ascii_text elts = Some its ->
  ascii_text base_path = Some base ->
  PyStringPtrList_new (PyList elts) base_path b
  = Done {| items := its; scalene_base_path := base;
            owner := Some (PyList elts); path_owner := Some base_path;
            profile_all := b |}
  /\ List.length its = List.length elts.
Proof.
  intros Hlen Hits Hbase. split.
  - rewrite PyStringPtrList_new_on_list by assumption. now rewrite Hits, Hbase.
  - now apply all_ascii_text_length.
Qed.

(** X2.  On a list of at most [INT_MAX] elements: one element that is
    not an ASCII [str] (another type, or a code point above 127), or such
    a base path, and the constructor ends the process on a null pointer:
    no filter with the remaining elements is built. *)
Theorem PyStringPtrList_new_bad_element (elts : list PyObject)
    (base_path : PyObject) (b : bool) :
  Z.of_nat (List.length elts) <= INT_MAX ->
  (exists o, In o elts /\ ascii_text o = None) \/ ascii_text base_path = None ->
  PyStringPtrList_new (PyList elts) base_path b = Fatal null_dereference.
Proof.
  intros Hlen Hbad. rewrite PyStringPtrList_new_on_list by assumption.
  destruct Hbad as [[o [Hin Ho]] | Hbase].
  - now rewrite (all_ascii_text_none elts o Hin Ho).
  - rewrite Hbase. now destruct (all_ascii_text elts).
Qed.

End ConstructorOnList.

Lemma PyStringPtrList_new_copies_list_witness :
  PyStringPtrList_new
    (PyList [PyUnicode_FromString "myproj"; PyUnicode_FromString "tools/"])
    (PyUnicode_FromString "/home/u/project") true
  = Done {| items := ["myproj"%string; "tools/"%string];
            scalene_base_path := "/home/u/project";
            owner := Some (PyList [PyUnicode_FromString "myproj";
                                   PyUnicode_FromString "tools/"]);
            path_owner := Some (PyUnicode_FromString "/home/u/project");
            profile_all := true |}
  /\ List.length ["myproj"%string; "tools/"%string] = 2%nat.
Proof.
  apply (PyStringPtrList_new_copies_list
           [PyUnicode_FromString "myproj"; PyUnicode_FromString "tools/"]
           (PyUnicode_FromString "/home/u/project") true).
  - vm_compute. discriminate.
  - reflexivity.
  - reflexivity.
Defined.

Lemma PyStringPtrList_new_bad_element_witness :
  PyStringPtrList_new
    (PyList [PyUnicode_FromString "myproj"; PyBytes "tools/"])
    (PyUnicode_FromString "/home/u/project") false
  = Fatal null_dereference.
Proof.
  apply (PyStringPtrList_new_bad_element
           [PyUnicode_FromString "myproj"; PyBytes "tools/"]
           (PyUnicode_FromString "/home/u/project") false).
  - vm_compute. discriminate.
  - left. exists (PyBytes "tools/"). split; [right; left|]; reflexivity.
Defined.

(* ================================================================== *)
(** ** More on should_trace *)

Section RuleOrder.

Variable realpath : FileSystem.
Variable this : PyStringPtrList.

Lemma strstr_empty_needle (haystack : string) :
  nonnull (strstr haystack EmptyString) = true.
Proof. now destruct haystack. Qed.

Lemma first_char_lt_has_lt (name : string) :
  Ascii.eqb (first_char name) "<"%char = true ->
  nonnull (strstr name "<") = true.
Proof.
  destruct name as [|c rest]; cbn [first_char]; [discriminate|].
  intros H. apply Ascii.eqb_eq in H. subst c.
  cbn. now destruct rest.
Qed.

Lemma should_trace_fatal_inv (filename : string) (c : Cause) :
  should_trace realpath this filename = Fatal c ->
  c = abort_called /\ realpath filename = None.
Proof.
  unfold should_trace.
  destruct (_ || _); [discriminate|].
  destruct (_ && _); [discriminate|].
  destruct (nonnull (strstr filename "scalene/scalene")); [discriminate|].
  destruct (_ && _); [discriminate|].
  destruct (realpath filename); [discriminate|].
  now intros [= <-].
Qed.

(** X3.  The only way [should_trace] ends the process is [abort()], and it
    does so only for a filename that [realpath] cannot resolve: a path
    that resolves always gets an answer. *)
Theorem should_trace_fatal_only_unresolved (filename : string) (c : Cause) :
  should_trace realpath this filename = Fatal c ->
  c = abort_called /\ realpath filename = None.
Proof. apply should_trace_fatal_inv. Qed.

(** X4.  A filename that starts with "<" and contains "<ipython" is
    traceable for every filter and file system, unless it carries a
    library marker: no fragment is needed, the profiler marker does not
    exclude it, and [realpath] is not asked. *)
Theorem should_trace_interactive (filename : string) :
  Ascii.eqb (first_char filename) "<"%char = true ->
  nonnull (strstr filename "<ipython") = true ->
  nonnull (strstr filename "site-packages") = false ->
  nonnull (strstr filename "/lib/python") = false ->
  should_trace realpath this filename = Done true.
Proof.
  intros H1 H2 H3 H4. unfold should_trace. now rewrite H3, H4, H1, H2.
Qed.

(** X5.  A filename that contains "scalene/scalene" and does not start
    with "<" is not traceable, whatever the fragments, the base path and
    the file system are. *)
Theorem should_trace_excludes_profiler (filename : string) :
  nonnull (strstr filename "scalene/scalene") = true ->
  Ascii.eqb (first_char filename) "<"%char = false ->
  should_trace realpath this filename = Done false.
Proof.
  intros H1 H2. unfold should_trace. rewrite H1, H2. cbn [andb].
  now destruct (_ || _).
Qed.

(** X8.  An empty fragment matches everything: with it among the items,
    every filename without library and profiler marker is traceable, and
    [realpath] is not asked. *)
Theorem should_trace_empty_fragment (filename : string) :
  In EmptyString (items this) ->
  owner this <> None ->
  nonnull (strstr filename "site-packages") = false ->
  nonnull (strstr filename "/lib/python") = false ->
  nonnull (strstr filename "scalene/scalene") = false ->
  should_trace realpath this filename = Done true.
Proof.
  intros Hin Hown H1 H2 H3. unfold should_trace. rewrite H1, H2, H3.
  cbn [orb]. destruct (_ && _); [reflexivity|].
  destruct (owner this); [|contradiction]. cbn [nonnull andb].
  replace (existsb _ (items this)) with true; [reflexivity|].
  symmetry. apply existsb_exists. exists EmptyString.
  split; [assumption | apply strstr_empty_needle].
Qed.

Lemma should_trace_cheap_test_eq (filename : string) :
  worth_asking filename = true ->
  should_trace realpath this filename
  = if nonnull (strstr filename "site-packages") then Done false
    else if nonnull (owner this)
            && existsb (fun traceable => nonnull (strstr filename traceable))
                       (items this)
    then Done true
    else match realpath filename with
         | None => Fatal abort_called
         | Some canonical =>
             Done (nonnull (strstr canonical (scalene_base_path this)))
         end.
Proof.
  unfold worth_asking. intros Hw.
  apply andb_true_iff in Hw. destruct Hw as [Hw H3].
  apply andb_true_iff in Hw. destruct Hw as [H1 H2].
  apply negb_true_iff in H1, H2, H3.
  assert (nonnull (strstr filename "/lib/python") = false) as Hlib.
  { apply not_true_is_false. intros H.
    apply lib_python_has_python in H. congruence. }
  assert (Ascii.eqb (first_char filename) "<"%char = false) as Hfirst.
  { apply not_true_is_false. intros H.
    apply first_char_lt_has_lt in H. congruence. }
  unfold should_trace. rewrite Hlib, Hfirst, H3, orb_false_r. reflexivity.
Qed.

(** X9.  On a filename that passes the cheap test of the walk, three of
    the tests of [should_trace] cannot fire ("/lib/python", the
    interactive one, "scalene/scalene"): what is left is "site-packages",
    the fragments and the base path. *)
Theorem should_trace_after_cheap_test (filename : string) :
  worth_asking filename = true ->
  should_trace realpath this filename
  = if nonnull (strstr filename "site-packages") then Done false
    else if nonnull (owner this)
            && existsb (fun traceable => nonnull (strstr filename traceable))
                       (items this)
    then Done true
    else match realpath filename with
         | None => Fatal abort_called
         | Some canonical =>
             Done (nonnull (strstr canonical (scalene_base_path this)))
         end.
Proof. apply should_trace_cheap_test_eq. Qed.

End RuleOrder.

Section FragmentSets.

Variable realpath : FileSystem.

Lemma existsb_incl (f : string -> bool) (l l' : list string) :
  incl l l' -> existsb f l = true -> existsb f l' = true.
Proof.
  intros Hincl H. apply existsb_exists in H. destruct H as [x [Hin Hx]].
  apply existsb_exists. exists x. split; [now apply Hincl | assumption].
Qed.

(** X6.  More fragments never take a file out of scope: a filename that
    is traceable stays traceable under a filter with the same base path
    whose items include the old ones. *)
Theorem should_trace_more_fragments (this this' : PyStringPtrList)
    (filename : string) :
  owner this' <> None ->
  scalene_base_path this' = scalene_base_path this ->
  incl (items this) (items this') ->
  should_trace realpath this filename = Done true ->
  should_trace realpath this' filename = Done true.
Proof.
  intros Hown Hbase Hincl. unfold should_trace.
  destruct (_ || _); [discriminate|].
  destruct (_ && _); [reflexivity|].
  destruct (nonnull (strstr filename "scalene/scalene")); [discriminate|].
  destruct (owner this') as [o'|]; [|contradiction]. cbn [nonnull andb].
  destruct (existsb _ (items this')) eqn:E'; [reflexivity|].
  destruct (nonnull (owner this) && existsb _ (items this)) eqn:E.
  - apply andb_true_iff in E. destruct E as [_ E].
    apply (existsb_incl _ _ _ Hincl) in E. congruence.
  - now rewrite Hbase.
Qed.

(** X7.  Only the set of fragments counts: two filters with the same
    base path whose items have the same members, in any order and with any
    repetitions, classify every filename alike. *)
Theorem should_trace_items_as_set (this this' : PyStringPtrList)
    (filename : string) :
  nonnull (owner this) = nonnull (owner this') ->
  scalene_base_path this' = scalene_base_path this ->
  (forall t, In t (items this) <-> In t (items this')) ->
  should_trace realpath this filename = should_trace realpath this' filename.
Proof.
  intros Hown Hbase Hsame. unfold should_trace.
  rewrite Hown, Hbase.
  replace (existsb (fun t => nonnull (strstr filename t)) (items this'))
    with (existsb (fun t => nonnull (strstr filename t)) (items this));
    [reflexivity|].
  destruct (existsb _ (items this)) eqn:E.
  - symmetry. apply (existsb_incl _ (items this)); [|assumption].
    intros t Ht. now apply Hsame.
  - symmetry. apply not_true_is_false. intros E'.
    apply (existsb_incl _ _ (items this)) in E'; [congruence|].
    intros t Ht. now apply Hsame.
Qed.

End FragmentSets.

Lemma should_trace_fatal_only_unresolved_witness :
  abort_called = abort_called /\ Sample.two_trees "/nowhere/a.py" = None.
Proof.
  apply (should_trace_fatal_only_unresolved Sample.two_trees
           (Sample.myproj false) "/nowhere/a.py" abort_called).
  reflexivity.
Defined.

Lemma should_trace_interactive_witness :
  should_trace Sample.empty_disk (Sample.myproj false)
               "<ipython-input-3-abcd>/scalene/scalene" = Done true.
Proof.
  apply (should_trace_interactive Sample.empty_disk (Sample.myproj false)
           "<ipython-input-3-abcd>/scalene/scalene"); reflexivity.
Defined.

Lemma should_trace_excludes_profiler_witness :
  should_trace Sample.two_trees (Sample.myproj false)
               "/home/u/project/myproj/scalene/scalene/x.py" = Done false.
Proof.
  apply (should_trace_excludes_profiler Sample.two_trees (Sample.myproj false)
           "/home/u/project/myproj/scalene/scalene/x.py"); reflexivity.
Defined.

Lemma should_trace_empty_fragment_witness :
  should_trace Sample.empty_disk
    {| items := [EmptyString]; scalene_base_path := "/home/u/project";
       owner := Some (PyList [PyUnicode []]);
       path_owner := Some (PyUnicode_FromString "/home/u/project");
       profile_all := false |}
    "/anywhere/else.py" = Done true.
Proof.
  apply should_trace_empty_fragment; try reflexivity.
  - left. reflexivity.
  - discriminate.
Defined.

Lemma should_trace_after_cheap_test_witness :
  should_trace Sample.two_trees (Sample.myproj false) "/tmp/other/lib.py"
  = Done false.
Proof.
  apply (should_trace_after_cheap_test Sample.two_trees (Sample.myproj false)
           "/tmp/other/lib.py").
  reflexivity.
Defined.

Lemma should_trace_more_fragments_witness :
  should_trace Sample.two_trees
    {| items := ["tools/"%string; "myproj"%string];
       scalene_base_path := "/home/u/project";
       owner := Some (PyList []); path_owner := None; profile_all := true |}
    "/srv/myproj/run.py" = Done true.
Proof.
  apply (should_trace_more_fragments Sample.two_trees (Sample.myproj false)).
  - discriminate.
  - reflexivity.
  - intros t [<- | []]. right. left. reflexivity.
  - reflexivity.
Defined.

Lemma should_trace_items_as_set_witness :
  should_trace Sample.two_trees (Sample.myproj false) "/srv/myproj/run.py"
  = should_trace Sample.two_trees
      {| items := ["myproj"%string; "myproj"%string];
         scalene_base_path := "/home/u/project";
         owner := Some (PyList []); path_owner := None; profile_all := true |}
      "/srv/myproj/run.py".
Proof.
  apply should_trace_items_as_set.
  - reflexivity.
  - reflexivity.
  - intros t. split.
    + intros [<- | []]. left. reflexivity.
    + intros [<- | [<- | []]]; left; reflexivity.
Defined.

(* ================================================================== *)
(** ** More on the stack walk *)

Section WalkOutcomes.

Variable PyPy_FatalError_defined : bool.
Variable realpath : FileSystem.
Variable instance : option PyStringPtrList.
Variable out : Location.

Local Abbreviation walk :=
  (walk_frames PyPy_FatalError_defined realpath instance out).

(** What the loop does at one frame, by the kind of frame. *)
Lemma walk_cons_cases (frame : PyFrameObject) (back : list PyFrameObject) :
  (frame_filename frame = None
   /\ walk (frame :: back) = {| consulted := []; ended := Done (0, out) |})
  \/ (passed_over realpath instance frame = true
      /\ ended (walk (frame :: back)) = ended (walk back)
      /\ exists asked, consulted (walk (frame :: back))
                       = asked ++ consulted (walk back)
                       /\ forall name, In name asked ->
                            frame_filename frame = Some name
                            /\ name <> EmptyString
                            /\ worth_asking name = true)
  \/ (exists name this,
        frame_filename frame = Some name /\ name <> EmptyString
        /\ worth_asking name = true /\ instance = Some this
        /\ ((should_trace realpath this name = Done true
             /\ walk (frame :: back)
                = {| consulted := [name];
                     ended :=
                       Done (1, {| filename := name;
                                   lineno :=
                                     PyCode_Addr2Line (f_code frame)
                                       (frame_bytei PyPy_FatalError_defined frame);
                                   bytei :=
                                     frame_bytei PyPy_FatalError_defined frame |}) |})
            \/ (exists c, should_trace realpath this name = Fatal c
                /\ walk (frame :: back)
                   = {| consulted := [name]; ended := Fatal c |}))).
Proof.
  unfold passed_over, frame_filename. cbn [walk_frames].
  destruct (PyUnicode_AsASCIIString _) as [encoded|]; [|left; now split].
  right. cbn [PyBytes_AsString].
  destruct (strlen (c_str encoded) =? 0) eqn:Hlen.
  { left. repeat split. exists []. split; [reflexivity | intros ? []]. }
  assert (c_str encoded <> EmptyString) as Hne
    by (intros E; rewrite E in Hlen; discriminate).
  destruct (worth_asking (c_str encoded)) eqn:Hw.
  2:{ left. repeat split. exists []. split; [reflexivity | intros ? []]. }
  destruct instance as [this|].
  2:{ left. repeat split. exists []. split; [reflexivity | intros ? []]. }
  cbn [orb negb].
  destruct (should_trace realpath this (c_str encoded)) as [[|]|c] eqn:Hst.
  - right. exists (c_str encoded), this.
    repeat split; try assumption. left. now split.
  - left. repeat split. exists [c_str encoded]. split; [reflexivity|].
    intros name [<- | []]. now repeat split.
  - right. exists (c_str encoded), this.
    repeat split; try assumption. right. exists c. now split.
Qed.

(** A report comes from the first frame that is not passed over. *)
Lemma walk_report_origin (frames : list PyFrameObject) (r : Z) (loc : Location) :
  ended (walk frames) = Done (r, loc) ->
  r <> 0 ->
  r = 1
  /\ exists pre frame post,
       frames = pre ++ frame :: post
       /\ Forall (fun f => passed_over realpath instance f = true) pre
       /\ reported realpath instance frame = true
       /\ frame_filename frame = Some (filename loc)
       /\ bytei loc = frame_bytei PyPy_FatalError_defined frame
       /\ lineno loc = PyCode_Addr2Line (f_code frame) (bytei loc).
Proof.
  induction frames as [|frame back IH].
  - cbn. intros [= <- _] Hr. contradiction.
  - destruct (walk_cons_cases frame back)
      as [[_ ->] | [[Hp [He _]] | [name [this [Hn [Hne [Hw [Hi H]]]]]]]].
    + cbn. intros [= <- _] Hr. contradiction.
    + rewrite He. intros Hend Hr.
      destruct (IH Hend Hr) as [-> [pre [f [post [-> [Hpre Hrest]]]]]].
      split; [reflexivity|].
      exists (frame :: pre), f, post. split; [reflexivity|].
      split; [now constructor | exact Hrest].
    + destruct H as [[Hst ->] | [c [_ ->]]]; [|discriminate].
      cbn [ended]. intros [= <- <-] _. split; [reflexivity|].
      exists [], frame, back. cbn [filename bytei lineno].
      repeat split; try assumption; try constructor.
      unfold reported. rewrite Hn, Hi, Hw, Hst.
      destruct name; [contradiction | reflexivity].
Qed.

(** A return of 0 leaves the references as they were at the start of the
    loop. *)
Lemma walk_zero_keeps_out (frames : list PyFrameObject) (r : Z) (loc : Location) :
  ended (walk frames) = Done (r, loc) -> r = 0 -> loc = out.
Proof.
  induction frames as [|frame back IH].
  - cbn. now intros [= _ <-].
  - destruct (walk_cons_cases frame back)
      as [[_ ->] | [[_ [He _]] | [name [this [_ [_ [_ [_ H]]]]]]]].
    + cbn. now intros [= _ <-].
    + now rewrite He.
    + destruct H as [[_ ->] | [c [_ ->]]]; cbn [ended].
      * intros [= <- _]. discriminate.
      * discriminate.
Qed.

(** The process ends in the walk only through the [abort()] of the
    filter, on the filename asked last. *)
Lemma walk_fatal_origin (frames : list PyFrameObject) (c : Cause) :
  ended (walk frames) = Fatal c ->
  c = abort_called
  /\ exists asked name,
       consulted (walk frames) = asked ++ [name] /\ realpath name = None.
Proof.
  induction frames as [|frame back IH].
  - discriminate.
  - destruct (walk_cons_cases frame back)
      as [[_ ->] | [[_ [He [asked [Hc _]]]] | [name [this [_ [_ [_ [_ H]]]]]]]].
    + discriminate.
    + rewrite He, Hc. intros Hend.
      destruct (IH Hend) as [-> [asked' [name [-> Hn]]]].
      split; [reflexivity|]. exists (asked ++ asked'), name.
      split; [now rewrite app_assoc | assumption].
    + destruct H as [[_ ->] | [c' [Hst ->]]]; [discriminate|].
      cbn [ended consulted]. intros [= <-].
      apply should_trace_fatal_inv in Hst. destruct Hst as [-> Hn].
      split; [reflexivity|]. now exists [], name.
Qed.

(** The filter is asked only about filenames of frames of the stack that
    are not empty and pass the cheap test. *)
Lemma walk_consulted_origin (frames : list PyFrameObject) (name : string) :
  In name (consulted (walk frames)) ->
  name <> EmptyString /\ worth_asking name = true
  /\ exists frame, In frame frames /\ frame_filename frame = Some name.
Proof.
  induction frames as [|frame back IH].
  - intros [].
  - destruct (walk_cons_cases frame back)
      as [[_ ->] | [[_ [_ [asked [-> Hasked]]]] | [n [this [Hn [Hne [Hw [_ H]]]]]]]].
    + intros [].
    + intros Hin. apply in_app_or in Hin. destruct Hin as [Hin | Hin].
      * destruct (Hasked name Hin) as [Hf [Hne Hw]].
        repeat split; try assumption. exists frame. split; [now left | assumption].
      * destruct (IH Hin) as [Hne [Hw [f [Hf Hn]]]].
        repeat split; try assumption. exists f. split; [now right | assumption].
    + assert (consulted (walk (frame :: back)) = [n]) as ->
        by (destruct H as [[_ ->] | [c [_ ->]]]; reflexivity).
      intros [<- | []]. repeat split; try assumption.
      exists frame. split; [now left | assumption].
Qed.

(** When every filename decodes, a return of 0 means that every frame
    was passed over. *)
Lemma walk_zero_all_passed (frames : list PyFrameObject) (r : Z) (loc : Location) :
  Forall (fun f => frame_filename f <> None) frames ->
  ended (walk frames) = Done (r, loc) ->
  r = 0 ->
  Forall (fun f => passed_over realpath instance f = true) frames.
Proof.
  induction 1 as [|frame back Hdec _ IH]; [constructor|].
  destruct (walk_cons_cases frame back)
    as [[Hnone _] | [[Hp [He _]] | [name [this [_ [_ [_ [_ H]]]]]]]].
  - contradiction.
  - rewrite He. intros Hend Hr. constructor; [assumption | now apply IH].
  - destruct H as [[_ ->] | [c [_ ->]]]; cbn [ended].
    + intros [= <- _]. discriminate.
    + discriminate.
Qed.

(** A frame with an empty filename is stepped over without a call to the
    filter. *)
Lemma walk_empty_frame (frame : PyFrameObject) (back : list PyFrameObject) :
  frame_filename frame = Some EmptyString ->
  walk (frame :: back) = walk back.
Proof.
  unfold frame_filename. intros Hname. cbn [walk_frames].
  destruct (PyUnicode_AsASCIIString _) as [encoded|]; [|discriminate].
  injection Hname as Hname. cbn [PyBytes_AsString]. now rewrite Hname.
Qed.

End WalkOutcomes.

(* ================================================================== *)
(** ** More on getPythonInfo *)

Section LocatorOutcomes.

Variable PyPy_FatalError_defined : bool.
Variable realpath : FileSystem.
Variable p : Process.
Variable out : Location.

Local Abbreviation locate rt :=
  (getPythonInfo PyPy_FatalError_defined realpath rt p out).

Lemma getPythonInfo_cases (rt : PyRuntime) :
  (locate rt = {| consulted := []; ended := Done (0, out) |}
   /\ (Py_IsInitialized rt = false \/ PyGILState_GetThisThreadState rt = None))
  \/ (exists frames,
        Py_IsInitialized rt = true
        /\ PyGILState_GetThisThreadState rt = Some frames
        /\ locate rt
           = walk_frames PyPy_FatalError_defined realpath (getInstance p)
                         BOGUS frames).
Proof.
  destruct rt as [[|] [frames|]].
  - right. now exists frames.
  - left. split; [reflexivity | now right].
  - left. split; [reflexivity | now left].
  - left. split; [reflexivity | now left].
Qed.

(** X10.  A non-zero return is 1 and comes from a frame of the thread's
    stack: every frame inside it was passed over, it is itself a frame
    with a non-empty filename that passes the cheap test and that the
    installed filter answers true for, and the three references hold its
    filename, its instruction offset and the line of that offset. *)
Theorem getPythonInfo_report_origin (rt : PyRuntime) (r : Z) (loc : Location) :
  ended (locate rt) = Done (r, loc) ->
  r <> 0 ->
  r = 1
  /\ exists pre frame post,
       Py_IsInitialized rt = true
       /\ PyGILState_GetThisThreadState rt = Some (pre ++ frame :: post)
       /\ Forall (fun f => passed_over realpath (getInstance p) f = true) pre
       /\ reported realpath (getInstance p) frame = true
       /\ frame_filename frame = Some (filename loc)
       /\ bytei loc = frame_bytei PyPy_FatalError_defined frame
       /\ lineno loc = PyCode_Addr2Line (f_code frame) (bytei loc).
Proof.
  destruct (getPythonInfo_cases rt) as [[-> _] | [frames [Hi [Ht ->]]]].
  - cbn. intros [= <- _] Hr. contradiction.
  - intros Hend Hr.
    destruct (walk_report_origin _ _ _ _ _ _ _ Hend Hr)
      as [-> [pre [frame [post [-> H]]]]].
    split; [reflexivity|]. exists pre, frame, post. now repeat split.
Qed.

(** X11.  The call returns 0 or 1.  After a return of 0 the references
    hold the sentinel when there is an interpreter with a thread state,
    and what they held before the call when there is none. *)
Theorem getPythonInfo_result_shape (rt : PyRuntime) (r : Z) (loc : Location) :
  ended (locate rt) = Done (r, loc) ->
  r = 1
  \/ (r = 0
      /\ loc = if Py_IsInitialized rt
                  && nonnull (PyGILState_GetThisThreadState rt)
               then BOGUS else out).
Proof.
  destruct (Z.eq_dec r 0) as [-> | Hr].
  - intros Hend. right. split; [reflexivity|].
    destruct (getPythonInfo_cases rt) as [[E H] | [frames [Hi [Ht E]]]];
      rewrite E in Hend.
    + cbn in Hend. injection Hend as <-.
      destruct H as [-> | ->]; [reflexivity | now rewrite andb_false_r].
    + rewrite Hi, Ht. cbn [andb nonnull].
      now apply (walk_zero_keeps_out _ _ _ _ _ _ _ Hend).
  - intros Hend. left.
    destruct (getPythonInfo_cases rt) as [[E _] | [frames [_ [_ E]]]];
      rewrite E in Hend.
    + cbn in Hend. injection Hend as <- _. contradiction.
    + now destruct (walk_report_origin _ _ _ _ _ _ _ Hend Hr).
Qed.

(** X12.  The call ends the process only through the [abort()] of
    [should_trace], and then the filename asked last is one that
    [realpath] does not resolve. *)
Theorem getPythonInfo_fatal_origin (rt : PyRuntime) (c : Cause) :
  ended (locate rt) = Fatal c ->
  c = abort_called
  /\ exists asked name,
       consulted (locate rt) = asked ++ [name] /\ realpath name = None.
Proof.
  destruct (getPythonInfo_cases rt) as [[-> _] | [frames [_ [_ ->]]]].
  - discriminate.
  - apply walk_fatal_origin.
Qed.

(** X13.  A frame whose filename decodes to the empty string is skipped:
    the call ends as on the stack without that frame, with the same
    filter calls. *)
Theorem getPythonInfo_skips_empty_frame
    (initialized : bool) (pre post : list PyFrameObject) (frame : PyFrameObject) :
  frame_filename frame = Some EmptyString ->
  locate (mkRuntime initialized (Some (pre ++ frame :: post)))
  = locate (mkRuntime initialized (Some (pre ++ post))).
Proof.
  intros Hname. destruct initialized; [|reflexivity].
  rewrite !getPythonInfo_running.
  induction pre as [|f pre IH]; cbn [app].
  - now apply walk_empty_frame.
  - now apply walk_cons_congr.
Qed.

(** X14.  The filter is only ever asked about filenames of frames of the
    stack that are not empty and contain none of "<", "/python" and
    "scalene/scalene". *)
Theorem getPythonInfo_consulted_origin (rt : PyRuntime) (name : string) :
  In name (consulted (locate rt)) ->
  name <> EmptyString
  /\ worth_asking name = true
  /\ exists frame, In frame (PyEval_GetFrame rt)
                   /\ frame_filename frame = Some name.
Proof.
  destruct (getPythonInfo_cases rt) as [[-> _] | [frames [_ [Ht ->]]]].
  - intros [].
  - unfold PyEval_GetFrame. rewrite Ht. apply walk_consulted_origin.
Qed.

(** X15.  When every filename of the stack decodes, a return of 0 means
    that every frame was passed over: each has an empty filename, or fails
    the cheap test, or was answered false by the filter, or there is no
    filter. *)
Theorem getPythonInfo_zero_all_passed (frames : list PyFrameObject)
    (loc : Location) :
  Forall (fun f => frame_filename f <> None) frames ->
  ended (locate (mkRuntime true (Some frames))) = Done (0, loc) ->
  Forall (fun f => passed_over realpath (getInstance p) f = true) frames.
Proof.
  intros Hdec Hend. rewrite getPythonInfo_running in Hend.
  now apply (walk_zero_all_passed _ _ _ _ _ _ _ Hdec Hend).
Qed.

End LocatorOutcomes.

Lemma getPythonInfo_report_origin_witness :
  1 = 1
  /\ exists pre frame post,
       true = true
       /\ Some [Sample.frame_in "/tmp/other/lib.py" 2;
                Sample.frame_in "/home/u/project/app.py" 10]
          = Some (pre ++ frame :: post)
       /\ Forall (fun f => passed_over Sample.two_trees
                             (Some (Sample.myproj false)) f = true) pre
       /\ reported Sample.two_trees (Some (Sample.myproj false)) frame = true
       /\ frame_filename frame = Some "/home/u/project/app.py"%string
       /\ 10 = frame_bytei false frame
       /\ 6 = PyCode_Addr2Line (f_code frame) 10.
Proof.
  apply (getPythonInfo_report_origin false Sample.two_trees
           (Sample.with_filter (Sample.myproj false)) BOGUS
           (Sample.running [Sample.frame_in "/tmp/other/lib.py" 2;
                            Sample.frame_in "/home/u/project/app.py" 10])
           1 {| filename := "/home/u/project/app.py"; lineno := 6; bytei := 10 |}).
  - reflexivity.
  - discriminate.
Defined.

Lemma getPythonInfo_result_shape_witness :
  let before := {| filename := "earlier.py"; lineno := 7; bytei := 3 |} in
  0 = 1
  \/ (0 = 0
      /\ before = if Py_IsInitialized (mkRuntime false None)
                     && nonnull (PyGILState_GetThisThreadState
                                   (mkRuntime false None))
                  then BOGUS else before).
Proof.
  apply (getPythonInfo_result_shape false Sample.two_trees
           (Sample.with_filter (Sample.myproj false))
           {| filename := "earlier.py"; lineno := 7; bytei := 3 |}
           (mkRuntime false None) 0).
  reflexivity.
Defined.

Lemma getPythonInfo_fatal_origin_witness :
  let w := getPythonInfo false Sample.two_trees
             (Sample.running [Sample.frame_in "/tmp/other/lib.py" 2;
                              Sample.frame_in "/nowhere/a.py" 4;
                              Sample.frame_in "/home/u/project/app.py" 10])
             (Sample.with_filter (Sample.myproj false)) BOGUS in
  abort_called = abort_called
  /\ exists asked name,
       consulted w = asked ++ [name] /\ Sample.two_trees name = None.
Proof.
  apply (getPythonInfo_fatal_origin false Sample.two_trees
           (Sample.with_filter (Sample.myproj false)) BOGUS
           (Sample.running [Sample.frame_in "/tmp/other/lib.py" 2;
                            Sample.frame_in "/nowhere/a.py" 4;
                            Sample.frame_in "/home/u/project/app.py" 10])
           abort_called).
  reflexivity.
Defined.

Lemma getPythonInfo_skips_empty_frame_witness :
  getPythonInfo false Sample.two_trees
    (Sample.running [Sample.frame_in EmptyString 0;
                     Sample.frame_in "/home/u/project/app.py" 10])
    (Sample.with_filter (Sample.myproj false)) BOGUS
  = getPythonInfo false Sample.two_trees
      (Sample.running [Sample.frame_in "/home/u/project/app.py" 10])
      (Sample.with_filter (Sample.myproj false)) BOGUS.
Proof.
  apply (getPythonInfo_skips_empty_frame false Sample.two_trees
           (Sample.with_filter (Sample.myproj false)) BOGUS true []
           [Sample.frame_in "/home/u/project/app.py" 10]
           (Sample.frame_in EmptyString 0)).
  reflexivity.
Defined.

Lemma getPythonInfo_consulted_origin_witness :
  let stack := [Sample.frame_in "<string>" 0;
                Sample.frame_in "/tmp/other/lib.py" 2;
                Sample.frame_in "/home/u/project/app.py" 10] in
  "/tmp/other/lib.py"%string <> EmptyString
  /\ worth_asking "/tmp/other/lib.py" = true
  /\ exists frame, In frame (PyEval_GetFrame (Sample.running stack))
                   /\ frame_filename frame = Some "/tmp/other/lib.py"%string.
Proof.
  apply (getPythonInfo_consulted_origin false Sample.two_trees
           (Sample.with_filter (Sample.myproj false)) BOGUS
           (Sample.running [Sample.frame_in "<string>" 0;
                            Sample.frame_in "/tmp/other/lib.py" 2;
                            Sample.frame_in "/home/u/project/app.py" 10])).
  vm_compute. left. reflexivity.
Defined.

Lemma getPythonInfo_zero_all_passed_witness :
  Forall (fun f => passed_over Sample.two_trees
                     (getInstance (Sample.with_filter (Sample.myproj false))) f
                   = true)
         [Sample.frame_in "/tmp/other/lib.py" 2; Sample.frame_in "<string>" 4].
Proof.
  apply (getPythonInfo_zero_all_passed false Sample.two_trees
           (Sample.with_filter (Sample.myproj false)) BOGUS
           [Sample.frame_in "/tmp/other/lib.py" 2; Sample.frame_in "<string>" 4]
           BOGUS).
  - repeat (constructor; [vm_compute; discriminate|]). constructor.
  - reflexivity.
Defined.

(* ================================================================== *)
(** ** Registration, then sampling *)

Section RegisterThenLocate.

Lemma PyStringPtrList_new_list_inv (elts : list PyObject) (base_path : PyObject)
    (b : bool) (this : PyStringPtrList) :
  PyStringPtrList_new (PyList elts) base_path b = Done this ->
  all_ascii_text elts = Some (items this)
  /\ ascii_text base_path = Some (scalene_base_path this)
  /\ owner this = Some (PyList elts).
Proof.
  unfold PyStringPtrList_new.
  destruct (vector_reserve _); cbn [bind]; [|discriminate].
  cbn [PyList_Size]. rewrite Nat2Z.id.
  destruct (push_items (PyList elts) 0 (List.length elts) [])
    as [its|] eqn:Hpush; cbn [bind]; [|discriminate].
  apply push_items_done in Hpush; [|reflexivity].
  destruct Hpush as [l [Hl ->]]. cbn [skipn app] in *.
  unfold ascii_text.
  destruct (PyUnicode_AsASCIIString (Some base_path));
    cbn [PyBytes_AsString bind]; [|discriminate].
  now intros [= <-].
Qed.

Lemma all_ascii_text_in (elts : list PyObject) (its : list string)
    (o : PyObject) (s : string) :
  all_ascii_text elts = Some its -> In o elts -> ascii_text o = Some s ->
  In s its.
Proof.
  revert its. induction elts as [|x elts IH]; intros its; [intros _ []|].
  cbn [all_ascii_text].
  destruct (ascii_text x) as [sx|] eqn:Hx; [|discriminate].
  destruct (all_ascii_text elts) as [l|]; [|discriminate].
  intros [= <-] [-> | Hin] Ho.
  - left. congruence.
  - right. now apply IH.
Qed.

Lemma register_files_to_profile_success_inv (p p' : Process)
    (a_list base_path flag : PyObject) :
  register_files_to_profile p [a_list; base_path; flag]
  = Done (Some PyNone, p') ->
  exists this,
    PyStringPtrList_new a_list base_path (PyObject_IsTrue flag) = Done this
    /\ p' = setInstance this p.
Proof.
  unfold register_files_to_profile. cbn [PyArg_ParseTuple_OOp].
  destruct (PyList_Check a_list) eqn:Hl.
  - destruct (PyStringPtrList_new _ _ _) as [this|]; cbn [bind]; [|discriminate].
    intros [= <-]. now exists this.
  - now rewrite PyStringPtrList_new_not_list.
Qed.

(** X16.  What a successful registration installs depends on its
    arguments alone: from any other process state the same call succeeds
    too and leaves the same filter, so that after registering A and then
    B the filter is the one of B alone.  The error indicator is left as it
    was. *)
Theorem register_files_to_profile_replaces (p q p' : Process)
    (args : list PyObject) :
  register_files_to_profile p args = Done (Some PyNone, p') ->
  exists q',
    register_files_to_profile q args = Done (Some PyNone, q')
    /\ getInstance q' = getInstance p'
    /\ getInstance p' <> None
    /\ error_indicator q' = error_indicator q.
Proof.
  unfold register_files_to_profile.
  destruct (PyArg_ParseTuple_OOp args) as [[[a_list base_path] flag]|];
    [|discriminate].
  destruct (PyList_Check a_list) eqn:Hl.
  - destruct (PyStringPtrList_new _ _ _) as [this|]; cbn [bind]; [|discriminate].
    intros [= <-]. exists (setInstance this q).
    repeat split. discriminate.
  - now rewrite PyStringPtrList_new_not_list.
Qed.

(** X17.  Registration and sampling together: after a successful
    registration, an innermost frame whose filename is not empty, passes
    the cheap test, has no "site-packages" in it and contains the text of
    one of the registered list elements is the frame reported, on every
    file system and whatever the outer frames are. *)
Theorem registered_fragment_is_located
    (PyPy_FatalError_defined : bool) (realpath : FileSystem)
    (p p' : Process) (out : Location)
    (elts : list PyObject) (base_path flag o : PyObject)
    (fragment name : string) (frame : PyFrameObject) (post : list PyFrameObject) :
  register_files_to_profile p [PyList elts; base_path; flag]
  = Done (Some PyNone, p') ->
  In o elts ->
  ascii_text o = Some fragment ->
  frame_filename frame = Some name ->
  name <> EmptyString ->
  worth_asking name = true ->
  nonnull (strstr name "site-packages") = false ->
  nonnull (strstr name fragment) = true ->
  getPythonInfo PyPy_FatalError_defined realpath
                (mkRuntime true (Some (frame :: post))) p' out
  = {| consulted := [name];
       ended :=
         Done (1, {| filename := name;
                     lineno := PyCode_Addr2Line (f_code frame)
                                 (frame_bytei PyPy_FatalError_defined frame);
                     bytei := frame_bytei PyPy_FatalError_defined frame |}) |}.
Proof.
  intros Hreg Hin Ho Hname Hne Hw Hsite Hfrag.
  apply register_files_to_profile_success_inv in Hreg.
  destruct Hreg as [this [Hnew ->]].
  apply PyStringPtrList_new_list_inv in Hnew.
  destruct Hnew as [Hits [_ Hown]].
  assert (should_trace realpath this name = Done true) as Hst.
  { rewrite should_trace_cheap_test_eq by assumption.
    rewrite Hsite, Hown. cbn [nonnull andb].
    replace (existsb _ (items this)) with true; [reflexivity|].
    symmetry. apply existsb_exists. exists fragment.
    split; [|assumption]. now apply (all_ascii_text_in elts _ o). }
  rewrite getPythonInfo_running. cbn [getInstance setInstance _instance].
  unfold frame_filename in Hname. cbn [walk_frames].
  destruct (PyUnicode_AsASCIIString _) as [encoded|]; [|discriminate].
  injection Hname as Hname. cbn [PyBytes_AsString]. rewrite Hname.
  replace (strlen name =? 0) with false
    by (destruct name; [contradiction | reflexivity]).
  now rewrite Hw, Hst.
Qed.

End RegisterThenLocate.

Lemma register_files_to_profile_replaces_witness :
  exists q',
    register_files_to_profile
      (Sample.with_filter
         {| items := ["old"%string]; scalene_base_path := "/srv";
            owner := Some (PyList []); path_owner := None;
            profile_all := true |})
      [PyList [PyUnicode_FromString "myproj"];
       PyUnicode_FromString "/home/u/project"; PyBool false]
    = Done (Some PyNone, q')
    /\ getInstance q' = getInstance (Sample.with_filter (Sample.myproj false))
    /\ getInstance (Sample.with_filter (Sample.myproj false)) <> None
    /\ error_indicator q' = None.
Proof.
  apply (register_files_to_profile_replaces Sample.no_filter).
  reflexivity.
Defined.

Lemma registered_fragment_is_located_witness :
  getPythonInfo false Sample.empty_disk
    (Sample.running [Sample.frame_in "/srv/myproj/run.py" 4;
                     Sample.frame_in "/home/u/project/app.py" 10])
    (Sample.with_filter (Sample.myproj true)) BOGUS
  = {| consulted := ["/srv/myproj/run.py"%string];
       ended := Done (1, {| filename := "/srv/myproj/run.py";
                            lineno := 3; bytei := 4 |}) |}.
Proof.
  apply (registered_fragment_is_located false Sample.empty_disk
           Sample.no_filter (Sample.with_filter (Sample.myproj true)) BOGUS
           [PyUnicode_FromString "myproj"]
           (PyUnicode_FromString "/home/u/project") (PyLong 1)
           (PyUnicode_FromString "myproj") "myproj" "/srv/myproj/run.py"
           (Sample.frame_in "/srv/myproj/run.py" 4)
           [Sample.frame_in "/home/u/project/app.py" 10]);
    try reflexivity.
  - left. reflexivity.
  - discriminate.
Defined.

(* ================================================================== *)
(** ** The debug printout *)

Section Printout.





End Printout.

(** The printout of the sample filter. *)
Example print_sample :
  print (Sample.myproj true)
  = ("Profile all? 1" ++ String NEWLINE "items {"
     ++ String TAB "myproj" ++ String NEWLINE "}"
     ++ String NEWLINE EmptyString)%string.
Proof. reflexivity. Qed.

(* ================================================================== *)
(** ** Reference counts under PyPtr *)

Section ReferenceCounts.

Import SmartPointer.

Variable h : Heap.

Lemma update_same (g : Heap) (a : nat) (n : Z) : update g a n a = n.
Proof. unfold update. now rewrite Nat.eqb_refl. Qed.

Lemma Py_IncRef_live (g : Heap) (a : nat) :
  1 <= g a -> Py_IncRef (Some a) g = Ok (update g a (g a + 1)).
Proof.
  intros H. cbn [Py_IncRef].
  now replace (0 <? g a) with true by (symmetry; apply Z.ltb_lt; lia).
Qed.

Lemma Py_DecRef_live (g : Heap) (a : nat) :
  1 <= g a -> Py_DecRef (Some a) g = Ok (update g a (g a - 1)).
Proof.
  intros H. cbn [Py_DecRef].
  now replace (0 <? g a) with true by (symmetry; apply Z.ltb_lt; lia).
Qed.

Ltac heap_cases :=
  unfold update;
  repeat match goal with
         | |- context [Nat.eqb ?u ?v] => destruct (Nat.eqb_spec u v); subst
         end;
  try lia; try congruence.

(** X19.  Assigning a [PyPtr] from one that holds the same live object
    (from itself, in particular) goes through at every count, also at 1,
    and leaves the pointer and every reference count as they were: the
    count is raised before it is lowered, so the object is not deallocated
    on the way. *)
Theorem assign_ptr_same_object (this ptr : PyPtr) :
  _obj this = _obj ptr ->
  sound h ptr ->
  exists h',
    assign_ptr this ptr h = Ok (mkPyPtr (_obj this), h')
    /\ forall a, h' a = h a.
Proof.
  unfold sound, assign_ptr, assign. intros Hsame Hlive. rewrite Hsame.
  destruct (_obj ptr) as [x|].
  - rewrite (Py_IncRef_live h x) by assumption.
    rewrite Py_DecRef_live by (rewrite update_same; lia).
    eexists. split; [reflexivity|].
    intros a. rewrite update_same. heap_cases.
  - exists h. now split.
Qed.


End ReferenceCounts.

Lemma assign_ptr_same_object_witness :
  let h : SmartPointer.Heap := fun a => if Nat.eqb a 7 then 1 else 0 in
  let ptr := SmartPointer.PyPtr_new (Some 7%nat) in
  exists h',
    SmartPointer.assign_ptr ptr ptr h
    = SmartPointer.Ok (SmartPointer.mkPyPtr (Some 7%nat), h')
    /\ forall a, h' a = h a.
Proof.
  apply (assign_ptr_same_object (fun a => if Nat.eqb a 7 then 1 else 0)
           (SmartPointer.PyPtr_new (Some 7%nat))
           (SmartPointer.PyPtr_new (Some 7%nat))).
  - reflexivity.
  - vm_compute. discriminate.
Defined.


(** The raw assignment has no such guard: given the object the pointer
    already holds, at count 1, it deallocates it and keeps the address, and
    the destructor then touches a deallocated object. *)
Example assign_own_object_dangles :
  let h : SmartPointer.Heap := fun a => if Nat.eqb a 7 then 1 else 0 in
  let this := SmartPointer.PyPtr_new (Some 7%nat) in
  exists this' h',
    SmartPointer.assign this (Some 7%nat) h = SmartPointer.Ok (this', h')
    /\ h' 7%nat = 0
    /\ SmartPointer.destroy this' h' = SmartPointer.UseAfterFree.
Proof. do 2 eexists. repeat split. Qed.
